(** * vnstock-service: the response normaliser and the endpoint plumbing

    A shallow embedding of [src/controllers/common.py]
    ([safe_convert_to_records], repeated verbatim at the top of
    [src/api_server.py]), of the endpoint handlers of [src/api_server.py]
    and [src/controllers/*.py], and of the two exception handlers of
    [src/api_server.py].

    Python objects that the code can mutate or alias (DataFrame, Series,
    dict, list) live in a heap of objects addressed by location; functions
    that touch them run in a small state-and-exception monad.  The pandas and
    numpy operations the code calls ([pd.isna], [DataFrame.to_dict],
    [DataFrame.copy], [np.isnan], ...) are modelled by their documented
    behaviour on the values represented here. *)

From Stdlib Require Import ZArith List String Ascii Bool Lia.
From Stdlib Require Import Numbers.DecimalString.
From Stdlib Require Import Floats.SpecFloat.
From stdpp Require Import base list strings.

Local Open Scope Z_scope.

(* ===================================================================== *)
(** ** Python strings *)
(* ===================================================================== *)

(** Strings are sequences of 8-bit characters.  Case conversion and
    white space follow Python on the ASCII range, which is where stock
    codes, column names and the separators used by the code live; a
    character above 127 is left alone by [upper] and [lower] and is not
    white space. *)
Module PyStr.

Definition is_lower (c : ascii) : bool :=
  (97 <=? nat_of_ascii c)%nat && (nat_of_ascii c <=? 122)%nat.

Definition is_upper (c : ascii) : bool :=
  (65 <=? nat_of_ascii c)%nat && (nat_of_ascii c <=? 90)%nat.

Definition upper_char (c : ascii) : ascii :=
  if is_lower c then ascii_of_nat (nat_of_ascii c - 32) else c.

Definition lower_char (c : ascii) : ascii :=
  if is_upper c then ascii_of_nat (nat_of_ascii c + 32) else c.

(** [str.upper()] *)
Fixpoint upper (s : string) : string :=
  match s with
  | EmptyString => EmptyString
  | String c s' => String (upper_char c) (upper s')
  end.

(** [str.lower()] *)
Fixpoint lower (s : string) : string :=
  match s with
  | EmptyString => EmptyString
  | String c s' => String (lower_char c) (lower s')
  end.

(** The characters [str.strip()] removes when called without argument:
    tab, line feed, vertical tab, form feed, carriage return, the four
    separators 0x1c..0x1f and the space. *)
Definition is_space (c : ascii) : bool :=
  let n := nat_of_ascii c in
  ((9 <=? n)%nat && (n <=? 13)%nat) || ((28 <=? n)%nat && (n <=? 32)%nat).

Definition is_underscore (c : ascii) : bool := Ascii.eqb c "_"%char.

Fixpoint lstrip (p : ascii -> bool) (s : string) : string :=
  match s with
  | EmptyString => EmptyString
  | String c s' => if p c then lstrip p s' else s
  end.

Fixpoint rstrip (p : ascii -> bool) (s : string) : string :=
  match s with
  | EmptyString => EmptyString
  | String c s' =>
      match rstrip p s' with
      | EmptyString => if p c then EmptyString else String c EmptyString
      | r => String c r
      end
  end.

(** [s.strip(chars)]: leading and trailing characters satisfying [p] go. *)
Definition strip (p : ascii -> bool) (s : string) : string :=
  rstrip p (lstrip p s).

(** [s.split(sep)] for a one-character separator: never empty. *)
Fixpoint split (sep : ascii) (s : string) : list string :=
  match s with
  | EmptyString => [EmptyString]
  | String c s' =>
      if Ascii.eqb c sep then EmptyString :: split sep s'
      else match split sep s' with
           | [] => [String c EmptyString]
           | p :: ps => String c p :: ps
           end
  end.

(** [sep.join(parts)] *)
Fixpoint join (sep : string) (parts : list string) : string :=
  match parts with
  | [] => EmptyString
  | [x] => x
  | x :: rest => x +:+ sep +:+ join sep rest
  end.

(** Truth value of a string: non-empty. *)
Definition nonempty (s : string) : bool :=
  match s with EmptyString => false | _ => true end.

(** [str(n)] for an [int]. *)
Definition of_int (z : Z) : string := NilZero.string_of_int (Z.to_int z).

Definition digit (z : Z) : ascii := ascii_of_nat (48 + Z.to_nat (z mod 10)).

(** ["%0<width>d" % z] for [0 <= z < 10 ^ width]. *)
Fixpoint zero_padded (width : nat) (z : Z) : string :=
  match width with
  | O => EmptyString
  | S w => zero_padded w (z / 10) +:+ String (digit z) EmptyString
  end.

End PyStr.

(* ===================================================================== *)
(** ** Floating-point values and date-times *)
(* ===================================================================== *)

(** An IEEE 754 value: Python's [float] and numpy's floating scalars. *)
Definition pyfloat := spec_float.

Definition float_is_nan (f : pyfloat) : bool :=
  match f with S754_nan => true | _ => false end.

Definition float_is_inf (f : pyfloat) : bool :=
  match f with S754_infinity _ => true | _ => false end.

Definition float_is_finite (f : pyfloat) : bool :=
  negb (float_is_nan f) && negb (float_is_inf f).

(** A naive [datetime.datetime] / [pd.Timestamp] (microsecond resolution). *)
Record datetime := mk_datetime {
  dt_year : Z; dt_month : Z; dt_day : Z;
  dt_hour : Z; dt_minute : Z; dt_second : Z; dt_microsecond : Z
}.

(** [d.strftime("%Y-%m-%d")] *)
Definition strftime_ymd (d : datetime) : string :=
  PyStr.zero_padded 4 (dt_year d) +:+ "-" +:+
  PyStr.zero_padded 2 (dt_month d) +:+ "-" +:+
  PyStr.zero_padded 2 (dt_day d).

(** [d.isoformat()]: the fraction is printed only when it is not zero. *)
Definition isoformat (d : datetime) : string :=
  strftime_ymd d +:+ "T" +:+
  PyStr.zero_padded 2 (dt_hour d) +:+ ":" +:+
  PyStr.zero_padded 2 (dt_minute d) +:+ ":" +:+
  PyStr.zero_padded 2 (dt_second d) +:+
  (if dt_microsecond d =? 0 then EmptyString
   else "." +:+ PyStr.zero_padded 6 (dt_microsecond d)).

(* ===================================================================== *)
(** ** Python values and objects *)
(* ===================================================================== *)

(** An index key of a Series, a column label, a level of a hierarchical
    column header. *)
Inductive label :=
| LStr (s : string)
| LInt (z : Z).

#[global] Instance label_eq_dec : EqDecision label.
Proof. solve_decision. Defined.

(** [str(l)] *)
Definition label_str (l : label) : string :=
  match l with
  | LStr s => s
  | LInt z => PyStr.of_int z
  end.

(** A dictionary key: a label, or the tuple of levels that [to_dict] uses
    as key for a hierarchical column. *)
Inductive key :=
| KLabel (l : label)
| KTuple (levels : list label).

#[global] Instance key_eq_dec : EqDecision key.
Proof. solve_decision. Defined.

(** The numpy floating scalar types.  [np.float64] is the only one that is
    also a subclass of Python's [float]. *)
Inductive np_float_kind := Float16 | Float32 | Float64 | LongDouble.

(** Immutable scalars. *)
Inductive atom :=
| ANone                                       (* None *)
| ABool (b : bool)                            (* bool *)
| AInt (z : Z)                                (* int *)
| AFloat (f : pyfloat)                        (* float *)
| AStr (s : string)                           (* str *)
| ANpFloat (k : np_float_kind) (f : pyfloat)  (* np.floating *)
| ANpInt (z : Z)                              (* np.integer *)
| ADatetime (d : datetime)                    (* datetime, pd.Timestamp *)
| ANaT                                        (* pd.NaT *)
| ANA.                                        (* pd.NA *)

(** What a cell of a table, an entry of a Series or a field of a record
    holds: a scalar, or (in a column of dtype object) a list of scalars. *)
Inductive cell :=
| CAtom (a : atom)
| CList (items : list atom).

(** Locations are positions in the heap. *)
Abbreviation loc := nat (only parsing).

(** A Python value as it is passed around: an immutable scalar or a
    reference to an object of the heap. *)
Inductive value :=
| VAtom (a : atom)
| VRef (l : loc).

(** Column headers of a table: flat labels ([pd.Index]) or tuples of
    levels ([pd.MultiIndex]). *)
Inductive columns :=
| Index (labels : list label)
| MultiIndex (tuples : list (list label)).

(** An insertion-ordered dictionary. *)
Abbreviation dict := (list (key * cell)) (only parsing).

(** Heap objects.  A Series is the sequence of pairs that [Series.items()]
    yields; a table is its column headers and its rows in order. *)
Inductive obj :=
| OSeries (entries : list (label * cell))
| ODataFrame (cols : columns) (rows : list (list cell))
| ODict (items : dict)
| OList (items : list value)
| OOther.                (* an object of any other type: tuple, set, ... *)

Abbreviation heap := (list obj) (only parsing).

(** Exceptions, by the classes the handlers tell apart. *)
Inductive exn :=
| ValueError (msg : string)                    (* ValueError, or a subclass *)
| HTTPException (status : Z) (detail : string) (* fastapi.HTTPException *)
| OtherError (cls : string) (msg : string).    (* any other Exception *)

(** [str(e)].  An [HTTPException] prints as its status and detail. *)
Definition exn_str (e : exn) : string :=
  match e with
  | ValueError msg => msg
  | HTTPException status detail => PyStr.of_int status +:+ ": " +:+ detail
  | OtherError _ msg => msg
  end.

(* ===================================================================== *)
(** ** State and exceptions *)
(* ===================================================================== *)

Inductive res (A : Type) :=
| Ok (a : A)
| Raise (e : exn).
Arguments Ok {A} a.
Arguments Raise {A} e.

(** A computation over a state [S] that returns or raises; the state is
    kept in both cases. *)
Definition M (S A : Type) : Type := S -> res A * S.

Definition ret {S A} (a : A) : M S A := fun s => (Ok a, s).

Definition bind {S A B} (m : M S A) (k : A -> M S B) : M S B :=
  fun s => match m s with
           | (Ok a, s') => k a s'
           | (Raise e, s') => (Raise e, s')
           end.

Definition raise {S A} (e : exn) : M S A := fun s => (Raise e, s).

(** [try: m  except Exception as e: handler e] *)
Definition try_except {S A} (m : M S A) (handler : exn -> M S A) : M S A :=
  fun s => match m s with
           | (Ok a, s') => (Ok a, s')
           | (Raise e, s') => handler e s'
           end.

(** A pure computation that may raise, run inside [M]. *)
Definition lift_res {S A} (r : res A) : M S A := fun s => (r, s).

Declare Scope py_scope.
Delimit Scope py_scope with py.
Notation "x <- m ;; k" := (bind m (fun x => k))
  (at level 100, m at next level, right associativity) : py_scope.
Notation "m ;;; k" := (bind m (fun _ => k))
  (at level 100, right associativity) : py_scope.
Local Open Scope py_scope.

(** [for x in xs: body x] *)
Fixpoint for_each {S A} (xs : list A) (body : A -> M S unit) : M S unit :=
  match xs with
  | [] => ret tt
  | x :: xs' => body x ;;; for_each xs' body
  end.

(** *** Heap primitives *)

(** A new object gets the next free location. *)
Definition alloc (o : obj) : M heap loc :=
  fun h => (Ok (length h), h ++ [o]).

(** The object a reference points to.  Every reference of a Python state
    points to an object; a location outside the heap reads as an object of
    no recognised type. *)
Definition load (l : loc) : M heap obj :=
  fun h => (Ok (default OOther (h !! l)), h).

Definition store (l : loc) (o : obj) : M heap unit :=
  fun h => (Ok tt, <[l := o]> h).

(** [d[k] = v] on an insertion-ordered dictionary: an existing key keeps
    its position. *)
Fixpoint dict_set (k : key) (v : cell) (d : dict) : dict :=
  match d with
  | [] => [(k, v)]
  | (k', v') :: d' =>
      if decide (k = k') then (k', v) :: d' else (k', v') :: dict_set k v d'
  end.

(** [dict(pairs)] *)
Definition dict_of_pairs (pairs : list (key * cell)) : dict :=
  fold_left (fun d kv => dict_set (fst kv) (snd kv) d) pairs [].

(** [record[key] = v] *)
Definition dict_setitem (record : loc) (k : key) (v : cell) : M heap unit :=
  o <- load record ;;
  match o with
  | ODict items => store record (ODict (dict_set k v items))
  | _ => raise (OtherError "TypeError" "object does not support item assignment")
  end.

(** [result.append(x)] *)
Definition list_append (result : loc) (x : value) : M heap unit :=
  o <- load result ;;
  match o with
  | OList items => store result (OList (items ++ [x]))
  | _ => raise (OtherError "AttributeError" "object has no attribute 'append'")
  end.

(* ===================================================================== *)
(** ** pandas and numpy operations the normaliser calls *)
(* ===================================================================== *)

Definition None_ : cell := CAtom ANone.

(** [pd.isna(x)] on a scalar: [None], NaN, [pd.NaT] and [pd.NA] are
    missing; an infinity is not. *)
Definition atom_isna (a : atom) : bool :=
  match a with
  | ANone | ANaT | ANA => true
  | AFloat f | ANpFloat _ f => float_is_nan f
  | _ => false
  end.

(** [pd.isna(x)] used as a condition.  On a list [pd.isna] answers with an
    array, element by element, and an array has a truth value only when it
    has one element (an empty array is an error from NumPy 2.2 on and
    false with a warning before; nothing below depends on that case). *)
Definition isna_truth (x : cell) : res bool :=
  match x with
  | CAtom a => Ok (atom_isna a)
  | CList [a] => Ok (atom_isna a)
  | CList [] =>
      Raise (ValueError "The truth value of an empty array is ambiguous. Use `array.size > 0` to check that an array is not empty.")
  | CList _ =>
      Raise (ValueError "The truth value of an array with more than one element is ambiguous. Use a.any() or a.all()")
  end.

(** [pandas.core.common.maybe_box_native]: [to_dict] hands out Python
    scalars for numpy ones. *)
Definition maybe_box_native (x : cell) : cell :=
  match x with
  | CAtom (ANpFloat _ f) => CAtom (AFloat f)
  | CAtom (ANpInt z) => CAtom (AInt z)
  | _ => x
  end.

(** ['_'.join(map(str, col)).strip('_')] *)
Definition flatten_column (col : list label) : string :=
  PyStr.strip PyStr.is_underscore (PyStr.join "_" (map label_str col)).

(** [df.empty]: some axis has length 0. *)
Definition frame_empty (cols : columns) (rows : list (list cell)) : bool :=
  match rows with
  | [] => true
  | _ => match cols with
         | Index [] | MultiIndex [] => true
         | _ => false
         end
  end.

(** The dictionary keys [to_dict] makes of the column headers. *)
Definition column_keys (cols : columns) : list key :=
  match cols with
  | Index labels => map KLabel labels
  | MultiIndex tuples => map KTuple tuples
  end.

(** One new dictionary per row, from column key to boxed cell. *)
Fixpoint alloc_records (keys : list key) (rows : list (list cell))
  : M heap (list value) :=
  match rows with
  | [] => ret []
  | row :: rows' =>
      d <- alloc (ODict (dict_of_pairs (zip keys (map maybe_box_native row)))) ;;
      ds <- alloc_records keys rows' ;;
      ret (VRef d :: ds)
  end.

(** [df.to_dict(orient="records")]: the dictionaries of the rows, in a new
    list.  A Series has a [to_dict] without [orient]; other objects have
    none. *)
Definition to_dict_records (df : loc) : M heap loc :=
  o <- load df ;;
  match o with
  | ODataFrame cols rows =>
      ds <- alloc_records (column_keys cols) rows ;;
      alloc (OList ds)
  | OSeries _ =>
      raise (OtherError "TypeError" "to_dict() got an unexpected keyword argument 'orient'")
  | _ => raise (OtherError "AttributeError" "object has no attribute 'to_dict'")
  end.

(* ===================================================================== *)
(** ** [safe_convert_to_records]  (src/controllers/common.py) *)
(* ===================================================================== *)

(** The value the Series loop stores under ["value"]:
<<
    if pd.isna(val):
        val = None
    elif isinstance(val, (np.floating, np.integer)):
        val = None if np.isnan(val) else val.item()
>> *)
Definition series_value (val : cell) : res cell :=
  match isna_truth val with
  | Raise e => Raise e
  | Ok true => Ok None_
  | Ok false =>
      match val with
      | CAtom (ANpFloat _ f) =>
          Ok (if float_is_nan f then None_ else CAtom (AFloat f))
      | CAtom (ANpInt z) => Ok (CAtom (AInt z))
      | _ => Ok val
      end
  end.

(** What the clean-up loop does with one field of a record. *)
Inductive action :=
| Keep                 (* nothing is assigned *)
| Assign (v : cell).   (* record[key] = v *)

(** The chain of tests of the clean-up loop, in the order of the source. *)
Definition clean_action (value : cell) : res action :=
  match value with
  (* if value is None: continue *)
  | CAtom ANone => Ok Keep
  (* if isinstance(value, float): *)
  | CAtom (AFloat f) | CAtom (ANpFloat Float64 f) =>
      if float_is_nan f || float_is_inf f then Ok (Assign None_) else Ok Keep
  (* elif isinstance(value, (np.floating)): *)
  | CAtom (ANpFloat _ f) =>
      if float_is_nan f || float_is_inf f then Ok (Assign None_)
      else Ok (Assign (CAtom (AFloat f)))
  (* elif isinstance(value, np.integer): *)
  | CAtom (ANpInt z) => Ok (Assign (CAtom (AInt z)))
  (* elif isinstance(value, (datetime, pd.Timestamp)): *)
  | CAtom (ADatetime d) => Ok (Assign (CAtom (AStr (isoformat d))))
  | CAtom ANaT => Ok (Assign None_)
  (* elif pd.isna(value): *)
  | _ =>
      match isna_truth value with
      | Raise e => Raise e
      | Ok true => Ok (Assign None_)
      | Ok false => Ok Keep
      end
  end.

(** The body of [for key, value in record.items()]. *)
Definition clean_field (record : loc) (kv : key * cell) : M heap unit :=
  a <- lift_res (clean_action (snd kv)) ;;
  match a with
  | Keep => ret tt
  | Assign v => dict_setitem record (fst kv) v
  end.

(** The body of [for record in records].  The assignments of the inner
    loop replace values of keys that exist, so the items it walks over are
    the ones the dictionary had on entry. *)
Definition clean_record (record : value) : M heap unit :=
  match record with
  | VRef r =>
      o <- load r ;;
      match o with
      | ODict items => for_each items (clean_field r)
      | _ => raise (OtherError "AttributeError" "object has no attribute 'items'")
      end
  | VAtom _ => raise (OtherError "AttributeError" "object has no attribute 'items'")
  end.

(** The body of [for idx, val in df.items()] of the Series branch. *)
Definition series_entry (result : loc) (entry : label * cell) : M heap unit :=
  val <- lift_res (series_value (snd entry)) ;;
  d <- alloc (ODict [(KLabel (LStr "index"), CAtom (AStr (label_str (fst entry))));
                     (KLabel (LStr "value"), val)]) ;;
  list_append result (VRef d).

Definition is_none (v : value) : bool :=
  match v with VAtom ANone => true | _ => false end.

(** [safe_convert_to_records(df, default_value)].  A call without a
    default passes [None], as the signature says. *)
Definition safe_convert_to_records (df : value) (default_value : value)
  : M heap value :=
  default_value <-
    (if is_none default_value
     then l <- alloc (OList []) ;; ret (VRef l)
     else ret default_value) ;;
  if is_none df then ret default_value else
  match df with
  | VAtom _ => ret default_value      (* a scalar is none of the shapes *)
  | VRef l =>
      o <- load l ;;
      match o with
      (* isinstance(df, pd.Series) *)
      | OSeries entries =>
          result <- alloc (OList []) ;;
          for_each entries (series_entry result) ;;;
          ret (VRef result)
      (* isinstance(df, pd.DataFrame) *)
      | ODataFrame cols rows =>
          if frame_empty cols rows then ret default_value else
          df <- match cols with
                | MultiIndex tuples =>
                    (* df = df.copy(); df.columns = [...] *)
                    c <- alloc (ODataFrame cols rows) ;;
                    store c (ODataFrame
                               (Index (map (fun col => LStr (flatten_column col)) tuples))
                               rows) ;;;
                    ret c
                | Index _ => ret l
                end ;;
          records <- to_dict_records df ;;
          o <- load records ;;
          match o with
          | OList items => for_each items clean_record
          | _ => ret tt
          end ;;;
          ret (VRef records)
      (* isinstance(df, dict) *)
      | ODict _ => r <- alloc (OList [df]) ;; ret (VRef r)
      (* isinstance(df, list) *)
      | OList _ => ret df
      | OOther => ret default_value
      end
  end.

(* ===================================================================== *)
(** ** The data-access library, seen from the handlers *)
(* ===================================================================== *)

(** An argument of a call into the library. *)
Inductive arg :=
| Str (s : string)
| Int (z : Z)
| Bool (b : bool)
| NoneArg
| StrList (l : list string)
| Dict (d : list (string * string))
| Obj (v : value).

Definition kwargs := list (string * arg).

(** [x] where [x : Optional[str]] *)
Definition opt_str (o : option string) : arg :=
  match o with Some s => Str s | None => NoneArg end.

(** One call into the library, as the source writes it:
    [Cls(init...).method(args...)] or [function(args...)].  An argument
    passed by position is keyed by its position. *)
Inductive upstream_call :=
| Method (cls : string) (init : kwargs) (method : string) (args : kwargs)
| Function (name : string) (args : kwargs).

(** The state a request runs in: the heap, and the calls made into the
    library so far. *)
Record world := mk_world {
  w_heap : heap;
  w_calls : list upstream_call
}.

Definition on_heap {A} (m : M heap A) : M world A :=
  fun w => let (r, h) := m (w_heap w) in (r, mk_world h (w_calls w)).

(** What lies outside the repository: the accessors of the library, and
    two pandas expressions of the handlers whose results need objects this
    development does not represent (a boolean-mask selection of rows; a
    comprehension over [df.items()], which for a table yields its column
    objects). *)
Record library := mk_library {
  (** the accessor behind a call: it returns a value or raises *)
  accessor : upstream_call -> M heap value;
  (** [if 'asset_type' in df.columns:
          df = df[df['asset_type'].str.lower() == 'crypto']] *)
  crypto_rows : value -> M heap value;
  (** [[{"index": str(idx), name: val} for idx, val in df.items()]] *)
  items_records : string -> value -> M heap value
}.

(* ===================================================================== *)
(** ** Endpoint handlers  (src/api_server.py; src/controllers/*.py repeat
       the gold, market, crypto, exchange-rate and health ones verbatim) *)
(* ===================================================================== *)

(** What a handler hands to the framework when it does not raise. *)
Inductive reply :=
| Return (v : value)                                    (* return value *)
| ReturnDict (fields : list (string * value))           (* return {...} *)
| JSONResponse (status_code : Z) (content : list (string * value)).

(** [df.empty] *)
Definition py_empty (df : value) : M heap bool :=
  match df with
  | VAtom _ => raise (OtherError "AttributeError" "object has no attribute 'empty'")
  | VRef l =>
      o <- load l ;;
      match o with
      | ODataFrame cols rows => ret (frame_empty cols rows)
      | OSeries entries => ret (match entries with [] => true | _ => false end)
      | _ => raise (OtherError "AttributeError" "object has no attribute 'empty'")
      end
  end.

(** [df is None or df.empty] *)
Definition none_or_empty (df : value) : M heap bool :=
  if is_none df then ret true else py_empty df.

(** [df.to_dict(orient="records")] on whatever the accessor returned. *)
Definition py_to_dict_records (df : value) : M heap value :=
  match df with
  | VAtom _ => raise (OtherError "AttributeError" "object has no attribute 'to_dict'")
  | VRef l => r <- to_dict_records l ;; ret (VRef r)
  end.

(** The loop of [get_quote_history]:
<<
    if isinstance(value, (datetime, pd.Timestamp)):
        record[key] = value.isoformat()
>>
    ([pd.NaT] is a [datetime] too and prints as ["NaT"]). *)
Definition isoformat_field (record : loc) (kv : key * cell) : M heap unit :=
  match snd kv with
  | CAtom (ADatetime d) => dict_setitem record (fst kv) (CAtom (AStr (isoformat d)))
  | CAtom ANaT => dict_setitem record (fst kv) (CAtom (AStr "NaT"))
  | _ => ret tt
  end.

Definition isoformat_record (record : value) : M heap unit :=
  match record with
  | VRef r =>
      o <- load r ;;
      match o with
      | ODict items => for_each items (isoformat_field r)
      | _ => raise (OtherError "AttributeError" "object has no attribute 'items'")
      end
  | VAtom _ => raise (OtherError "AttributeError" "object has no attribute 'items'")
  end.

Definition isoformat_records (records : value) : M heap unit :=
  match records with
  | VRef l =>
      o <- load l ;;
      match o with
      | OList items => for_each items isoformat_record
      | _ => ret tt
      end
  | VAtom _ => ret tt
  end.

(** [isinstance(result, pd.DataFrame)] *)
Definition is_dataframe (v : value) : M heap bool :=
  match v with
  | VAtom _ => ret false
  | VRef l => o <- load l ;;
              ret (match o with ODataFrame _ _ => true | _ => false end)
  end.

(** The [except] clauses, as the handlers repeat them. *)

(** [except Exception as e: raise HTTPException(status_code=500, detail=str(e))] *)
Definition except_500 {S A} (body : M S A) : M S A :=
  try_except body (fun e => raise (HTTPException 500 (exn_str e))).

(** [except ValueError as e: raise HTTPException(status_code=400, detail=str(e))]
    followed by the clause above. *)
Definition except_400_500 {S A} (body : M S A) : M S A :=
  try_except body (fun e =>
    match e with
    | ValueError _ => raise (HTTPException 400 (exn_str e))
    | _ => raise (HTTPException 500 (exn_str e))
    end).

(** [except HTTPException: raise] followed by the clause for [Exception]. *)
Definition except_http_500 {S A} (body : M S A) : M S A :=
  try_except body (fun e =>
    match e with
    | HTTPException _ _ => raise e
    | _ => raise (HTTPException 500 (exn_str e))
    end).

Section Handlers.

Variable lib : library.
(** The clock, as [datetime.now()] reads it in the handler. *)
Variable today : datetime.

(** A call into the library: the accessor runs on the heap and the call
    is recorded. *)
Definition call_upstream (c : upstream_call) : M world value :=
  fun w => let (r, h) := accessor lib c (w_heap w) in
           (r, mk_world h (w_calls w ++ [c])).

(** [return []] *)
Definition return_empty_list : M world reply :=
  l <- on_heap (alloc (OList [])) ;; ret (Return (VRef l)).

(** [return safe_convert_to_records(df)] *)
Definition return_records (df : value) : M world reply :=
  v <- on_heap (safe_convert_to_records df (VAtom ANone)) ;; ret (Return v).

(** [if df is None or df.empty: return []]
    [return df.to_dict(orient="records")] *)
Definition return_to_dict (df : value) : M world reply :=
  e <- on_heap (none_or_empty df) ;;
  if e then return_empty_list else
  v <- on_heap (py_to_dict_records df) ;; ret (Return v).

(** [if df is None or df.empty: return []]
    [return [{"index": str(idx), name: val} for idx, val in df.items()]] *)
Definition return_items (name : string) (df : value) : M world reply :=
  e <- on_heap (none_or_empty df) ;;
  if e then return_empty_list else
  v <- on_heap (items_records lib name df) ;; ret (Return v).

(** [if end is None: end = datetime.now().strftime("%Y-%m-%d")]
    (and the same for [date]). *)
Definition or_today (d : option string) : string :=
  match d with Some s => s | None => strftime_ymd today end.

(** *** Health *)

Definition health_check : M world reply :=
  ret (ReturnDict [("status", VAtom (AStr "healthy"));
                   ("service", VAtom (AStr "vnstock-api"));
                   ("timestamp", VAtom (AStr (isoformat today)))]).

Definition readiness_check : M world reply :=
  try_except
    (call_upstream (Method "Listing" [("source", Str "vci")] "all_symbols" []) ;;;
     ret (ReturnDict [("ready", VAtom (ABool true));
                      ("timestamp", VAtom (AStr (isoformat today)))]))
    (fun e => ret (JSONResponse 503 [("ready", VAtom (ABool false));
                                     ("error", VAtom (AStr (exn_str e)))])).

(** *** Quote *)

Definition get_quote_history (symbol start : string) (end_ : option string)
    (interval source : string) : M world reply :=
  except_400_500
    (df <- call_upstream
             (Method "Quote" [("source", Str source); ("symbol", Str (PyStr.upper symbol))]
                     "history" [("start", Str start); ("end", opt_str end_);
                                ("interval", Str interval)]) ;;
     e <- on_heap (none_or_empty df) ;;
     if e then return_empty_list else
     records <- on_heap (py_to_dict_records df) ;;
     on_heap (isoformat_records records) ;;;
     ret (Return records)).

Definition get_intraday_data (symbol : string) (page_size page : Z)
    (source : string) : M world reply :=
  except_400_500
    (df <- call_upstream
             (Method "Quote" [("source", Str source); ("symbol", Str (PyStr.upper symbol))]
                     "intraday" [("page_size", Int page_size); ("page", Int page)]) ;;
     return_to_dict df).

Definition get_price_depth (symbol source : string) : M world reply :=
  except_400_500
    (df <- call_upstream
             (Method "Quote" [("source", Str source); ("symbol", Str (PyStr.upper symbol))]
                     "price_depth" []) ;;
     return_to_dict df).

(** *** Listing *)

Definition get_all_symbols (source : string) : M world reply :=
  except_500
    (df <- call_upstream (Method "Listing" [("source", Str source)] "all_symbols" []) ;;
     return_to_dict df).

Definition get_symbols_by_group (group source : string) : M world reply :=
  except_500
    (df <- call_upstream (Method "Listing" [("source", Str source)]
                                 "symbols_by_group" [("group", Str group)]) ;;
     return_items "name" df).

Definition get_symbols_by_exchange (lang source : string) : M world reply :=
  except_500
    (df <- call_upstream (Method "Listing" [("source", Str source)]
                                 "symbols_by_exchange" [("lang", Str lang)]) ;;
     return_to_dict df).

Definition get_industries (lang source : string) : M world reply :=
  except_500
    (df <- call_upstream (Method "Listing" [("source", Str source)]
                                 "symbols_by_industries" [("lang", Str lang)]) ;;
     return_to_dict df).

Definition get_icb_industries (source : string) : M world reply :=
  except_500
    (df <- call_upstream (Method "Listing" [("source", Str source)] "industries_icb" []) ;;
     return_to_dict df).

Definition get_futures (source : string) : M world reply :=
  except_500
    (df <- call_upstream (Method "Listing" [("source", Str source)] "all_future_indices" []) ;;
     return_items "recordName" df).

Definition get_covered_warrants (source : string) : M world reply :=
  except_500
    (df <- call_upstream (Method "Listing" [("source", Str source)] "all_covered_warrant" []) ;;
     return_to_dict df).

Definition get_government_bonds (source : string) : M world reply :=
  except_500
    (df <- call_upstream (Method "Listing" [("source", Str source)] "all_government_bonds" []) ;;
     if is_none df then return_empty_list else return_records df).

Definition get_all_bonds (source : string) : M world reply :=
  except_500
    (df <- call_upstream (Method "Listing" [("source", Str source)] "all_bonds" []) ;;
     if is_none df then return_empty_list else return_records df).

(** *** Company *)

(** [Company(source=source, symbol=symbol.upper()).method(args)] *)
Definition company_call (source symbol method : string) (args : kwargs) : upstream_call :=
  Method "Company" [("source", Str source); ("symbol", Str (PyStr.upper symbol))] method args.

Definition get_company_overview (symbol source : string) : M world reply :=
  except_500
    (result <- call_upstream (company_call source symbol "overview" []) ;;
     if is_none result then ret (ReturnDict []) else
     b <- on_heap (is_dataframe result) ;;
     if b then v <- on_heap (py_to_dict_records result) ;; ret (Return v)
     else ret (Return result)).

Definition get_shareholders (symbol source : string) : M world reply :=
  except_500
    (df <- call_upstream (company_call source symbol "shareholders" []) ;;
     return_to_dict df).

Definition get_officers (symbol filter_by source : string) : M world reply :=
  except_500
    (df <- call_upstream (company_call source symbol "officers" [("filter_by", Str filter_by)]) ;;
     return_to_dict df).

Definition get_subsidiaries (symbol source : string) : M world reply :=
  except_500
    (df <- call_upstream (company_call source symbol "subsidiaries" []) ;;
     return_to_dict df).

Definition get_company_news (symbol source : string) : M world reply :=
  except_500
    (df <- call_upstream (company_call source symbol "news" []) ;;
     return_to_dict df).

Definition get_company_events (symbol source : string) : M world reply :=
  except_500
    (df <- call_upstream (company_call source symbol "events" []) ;;
     return_to_dict df).

Definition get_company_profile (symbol source : string) : M world reply :=
  except_500
    (df <- call_upstream (company_call source symbol "profile" []) ;;
     return_records df).

Definition get_company_dividends (symbol : string) (page_size page : Z)
    (source : string) : M world reply :=
  except_500
    (df <- call_upstream (company_call source symbol "dividends"
                            [("page_size", Int page_size); ("page", Int page)]) ;;
     return_records df).

Definition get_company_affiliate (symbol source : string) : M world reply :=
  except_500
    (df <- call_upstream (company_call source symbol "affiliate" []) ;;
     return_records df).

(** *** Finance *)

(** [Finance(source=source, symbol=symbol.upper(), period=period).method(args)] *)
Definition finance_call (source symbol period method : string) (args : kwargs)
  : upstream_call :=
  Method "Finance" [("source", Str source); ("symbol", Str (PyStr.upper symbol));
                    ("period", Str period)] method args.

Definition get_balance_sheet (symbol period lang source : string) : M world reply :=
  except_500
    (df <- call_upstream (finance_call source symbol period "balance_sheet" [("lang", Str lang)]) ;;
     return_to_dict df).

Definition get_income_statement (symbol period lang source : string) : M world reply :=
  except_500
    (df <- call_upstream (finance_call source symbol period "income_statement" [("lang", Str lang)]) ;;
     return_to_dict df).

Definition get_cash_flow (symbol period lang source : string) : M world reply :=
  except_500
    (df <- call_upstream (finance_call source symbol period "cash_flow" [("lang", Str lang)]) ;;
     return_to_dict df).

Definition get_financial_ratios (symbol period source : string) : M world reply :=
  except_500
    (df <- call_upstream (finance_call source symbol period "ratio" []) ;;
     return_to_dict df).

(** *** Trading *)

(** [[s.strip().upper() for s in symbols.split(",") if s.strip()]] *)
Definition symbols_list_of (symbols : string) : list string :=
  map (fun s => PyStr.upper (PyStr.strip PyStr.is_space s))
      (List.filter (fun s => PyStr.nonempty (PyStr.strip PyStr.is_space s))
                   (PyStr.split ","%char symbols)).

Definition get_price_board (symbols source : string) : M world reply :=
  except_400_500
    (let symbols_list := symbols_list_of symbols in
     match symbols_list with
     | [] => raise (HTTPException 400 "Cần ít nhất một mã cổ phiếu")
     | first :: _ =>
         let init := [("source", Str source); ("symbol", Str first)] in
         df <- (if String.eqb (PyStr.lower source) "vci"
                then call_upstream
                       (Method "Trading" init "price_board"
                               [("symbols_list", StrList symbols_list);
                                ("flatten_columns", Bool true)])
                else call_upstream
                       (Method "Trading" init "price_board"
                               [("symbol_ls", StrList symbols_list)])) ;;
         return_records df
     end).

(** [Trading(source=source, symbol=symbol.upper()).method(args)] *)
Definition trading_call (source symbol method : string) (args : kwargs) : upstream_call :=
  Method "Trading" [("source", Str source); ("symbol", Str (PyStr.upper symbol))] method args.

Definition get_foreign_trade (symbol start : string) (end_ : option string)
    (source : string) : M world reply :=
  except_500
    (df <- call_upstream (trading_call source symbol "foreign_trade"
                            [("start", Str start); ("end", Str (or_today end_))]) ;;
     return_records df).

Definition get_insider_deals (symbol source : string) : M world reply :=
  except_500
    (df <- call_upstream (trading_call source symbol "insider_deal" []) ;;
     return_records df).

Definition get_prop_trade (symbol source : string) : M world reply :=
  except_500
    (df <- call_upstream (trading_call source symbol "prop_trade" []) ;;
     return_records df).

Definition get_trading_stats (symbol start : string) (end_ : option string)
    (source : string) : M world reply :=
  except_500
    (df <- call_upstream (trading_call source symbol "trading_stats"
                            [("start", Str start); ("end", Str (or_today end_))]) ;;
     return_records df).

Definition get_order_stats (symbol source : string) : M world reply :=
  except_500
    (df <- call_upstream (trading_call source symbol "order_stats" []) ;;
     return_records df).

(** *** Screener *)

Definition screen_stocks (exchange : string) (limit : Z) (lang : string) : M world reply :=
  except_500
    (df <- call_upstream
             (Method "Screener" [("source", Str "tcbs")] "stock"
                     [("params", Dict [("exchangeName", exchange)]);
                      ("limit", Int limit); ("lang", Str lang)]) ;;
     return_records df).

Definition screen_stocks_with_filters (params : option value) (limit : Z)
    (lang : string) : M world reply :=
  except_500
    (let params := match params with
                   | None => Dict [("exchangeName", "HOSE,HNX,UPCOM")]
                   | Some d => Obj d
                   end in
     df <- call_upstream
             (Method "Screener" [("source", Str "tcbs")] "stock"
                     [("params", params); ("limit", Int limit); ("lang", Str lang)]) ;;
     return_records df).

(** *** Fund *)

Definition get_fund_listing (fund_type : string) : M world reply :=
  except_500
    (df <- call_upstream (Method "Fund" [] "listing" [("fund_type", Str fund_type)]) ;;
     return_records df).

Definition filter_fund (symbol : string) : M world reply :=
  except_500
    (df <- call_upstream (Method "Fund" [] "filter" [("symbol", Str symbol)]) ;;
     return_records df).

Definition get_fund_top_holding (symbol : string) : M world reply :=
  except_500
    (df <- call_upstream (Method "Fund" [] "details.top_holding" [("symbol", Str symbol)]) ;;
     return_records df).

Definition get_fund_industry_holding (symbol : string) : M world reply :=
  except_500
    (df <- call_upstream (Method "Fund" [] "details.industry_holding" [("symbol", Str symbol)]) ;;
     return_records df).

Definition get_fund_nav_report (symbol : string) : M world reply :=
  except_500
    (df <- call_upstream (Method "Fund" [] "details.nav_report" [("symbol", Str symbol)]) ;;
     return_records df).

Definition get_fund_asset_holding (symbol : string) : M world reply :=
  except_500
    (df <- call_upstream (Method "Fund" [] "details.asset_holding" [("symbol", Str symbol)]) ;;
     return_records df).

(** *** MSN, crypto, forex *)

Definition msn_search_symbol (query : string) (locale : option string) (limit : Z)
  : M world reply :=
  except_500
    (df <- call_upstream
             (Method "MSNListing" [] "search_symbol_id"
                     [("query", Str query); ("locale", opt_str locale); ("limit", Int limit)]) ;;
     return_records df).

Definition msn_get_history (symbol_id start : string) (end_ : option string)
    (interval : string) (count_back : Z) : M world reply :=
  except_500
    (df <- call_upstream
             (Method "MSNQuote" [("symbol_id", Str symbol_id)] "history"
                     [("start", Str start); ("end", Str (or_today end_));
                      ("interval", Str interval); ("count_back", Int count_back)]) ;;
     return_records df).

Definition search_crypto (query : string) (limit : Z) : M world reply :=
  except_500
    (df <- call_upstream
             (Method "MSNListing" [] "search_symbol_id"
                     [("query", Str query); ("limit", Int limit)]) ;;
     df <- on_heap (crypto_rows lib df) ;;
     return_records df).

Definition get_crypto_history (symbol_id start : string) (end_ : option string)
    (interval : string) (count_back : Z) : M world reply :=
  except_500
    (df <- call_upstream
             (Method "MSNQuote" [("symbol_id", Str symbol_id)] "history"
                     [("start", Str start); ("end", Str (or_today end_));
                      ("interval", Str interval); ("count_back", Int count_back);
                      ("asset_type", Str "crypto")]) ;;
     return_records df).

Definition search_forex (query : string) (limit : Z) : M world reply :=
  except_500
    (df <- call_upstream
             (Method "MSNListing" [] "search_symbol_id"
                     [("query", Str query); ("limit", Int limit)]) ;;
     return_records df).

Definition get_forex_history (symbol_id start : string) (end_ : option string)
    (interval : string) (count_back : Z) : M world reply :=
  except_500
    (df <- call_upstream
             (Method "MSNQuote" [("symbol_id", Str symbol_id)] "history"
                     [("start", Str start); ("end", Str (or_today end_));
                      ("interval", Str interval); ("count_back", Int count_back)]) ;;
     return_records df).

(** *** Market *)

Definition get_market_indices : M world reply :=
  except_500
    (df <- call_upstream (Function "get_all_indices" []) ;;
     return_records df).

Definition get_index_groups : M world reply :=
  except_500
    (groups <- call_upstream (Function "get_all_index_groups" []) ;;
     ret (ReturnDict [("groups", groups)])).

Definition get_indices_by_group (group : string) : M world reply :=
  except_http_500
    (df <- call_upstream (Function "get_indices_by_group" [("0", Str group)]) ;;
     if is_none df
     then raise (HTTPException 404 ("Group '" +:+ group +:+ "' not found"))
     else return_records df).

Definition get_all_sectors : M world reply :=
  except_500
    (df <- call_upstream (Function "get_all_sectors" []) ;;
     return_records df).

Definition get_all_exchanges : M world reply :=
  except_500
    (exchanges <- call_upstream (Function "get_all_exchanges" []) ;;
     ret (ReturnDict [("exchanges", exchanges)])).

(** *** Gold and exchange rate *)

Definition get_sjc_gold_price (date : option string) : M world reply :=
  except_400_500
    (df <- call_upstream (Function "sjc_gold_price" [("date", opt_str date)]) ;;
     if is_none df then return_empty_list else return_records df).

Definition get_btmc_gold_price : M world reply :=
  except_500
    (df <- call_upstream (Function "btmc_goldprice" []) ;;
     e <- on_heap (none_or_empty df) ;;
     if e then return_empty_list else return_records df).

Definition get_vcb_exchange_rate (date : option string) : M world reply :=
  except_400_500
    (df <- call_upstream
             (Function "vcb_exchange_rate" [("date", Str (or_today date))]) ;;
     e <- on_heap (none_or_empty df) ;;
     if e then return_empty_list else return_records df).

End Handlers.

(* ===================================================================== *)
(** ** The application: routes and exception handlers *)
(* ===================================================================== *)

(** A request that passed the framework's parameter validation: the route
    and the arguments its handler is called with. *)
Inductive request :=
| R_health_check
| R_readiness_check
| R_get_quote_history (symbol start : string) (end_ : option string) (interval source : string)
| R_get_intraday_data (symbol : string) (page_size page : Z) (source : string)
| R_get_price_depth (symbol source : string)
| R_get_all_symbols (source : string)
| R_get_symbols_by_group (group source : string)
| R_get_symbols_by_exchange (lang source : string)
| R_get_industries (lang source : string)
| R_get_icb_industries (source : string)
| R_get_futures (source : string)
| R_get_covered_warrants (source : string)
| R_get_company_overview (symbol source : string)
| R_get_shareholders (symbol source : string)
| R_get_officers (symbol filter_by source : string)
| R_get_subsidiaries (symbol source : string)
| R_get_company_news (symbol source : string)
| R_get_company_events (symbol source : string)
| R_get_balance_sheet (symbol period lang source : string)
| R_get_income_statement (symbol period lang source : string)
| R_get_cash_flow (symbol period lang source : string)
| R_get_financial_ratios (symbol period source : string)
| R_get_price_board (symbols source : string)
| R_screen_stocks (exchange : string) (limit : Z) (lang : string)
| R_screen_stocks_with_filters (params : option value) (limit : Z) (lang : string)
| R_get_fund_listing (fund_type : string)
| R_filter_fund (symbol : string)
| R_get_fund_top_holding (symbol : string)
| R_get_fund_industry_holding (symbol : string)
| R_get_fund_nav_report (symbol : string)
| R_get_fund_asset_holding (symbol : string)
| R_msn_search_symbol (query : string) (locale : option string) (limit : Z)
| R_msn_get_history (symbol_id start : string) (end_ : option string) (interval : string) (count_back : Z)
| R_search_crypto (query : string) (limit : Z)
| R_get_crypto_history (symbol_id start : string) (end_ : option string) (interval : string) (count_back : Z)
| R_search_forex (query : string) (limit : Z)
| R_get_forex_history (symbol_id start : string) (end_ : option string) (interval : string) (count_back : Z)
| R_get_foreign_trade (symbol start : string) (end_ : option string) (source : string)
| R_get_insider_deals (symbol source : string)
| R_get_prop_trade (symbol source : string)
| R_get_market_indices
| R_get_index_groups
| R_get_indices_by_group (group : string)
| R_get_all_sectors
| R_get_all_exchanges
| R_get_sjc_gold_price (date : option string)
| R_get_btmc_gold_price
| R_get_vcb_exchange_rate (date : option string)
| R_get_company_profile (symbol source : string)
| R_get_company_dividends (symbol : string) (page_size page : Z) (source : string)
| R_get_company_affiliate (symbol source : string)
| R_get_government_bonds (source : string)
| R_get_all_bonds (source : string)
| R_get_trading_stats (symbol start : string) (end_ : option string) (source : string)
| R_get_order_stats (symbol source : string).

(** The routing table: each route runs its handler. *)
Definition handle (lib : library) (today : datetime) (req : request) : M world reply :=
  match req with
  | R_health_check => health_check today
  | R_readiness_check => readiness_check lib today
  | R_get_quote_history symbol start end_ interval source =>
      get_quote_history lib symbol start end_ interval source
  | R_get_intraday_data symbol page_size page source =>
      get_intraday_data lib symbol page_size page source
  | R_get_price_depth symbol source => get_price_depth lib symbol source
  | R_get_all_symbols source => get_all_symbols lib source
  | R_get_symbols_by_group group source => get_symbols_by_group lib group source
  | R_get_symbols_by_exchange lang source => get_symbols_by_exchange lib lang source
  | R_get_industries lang source => get_industries lib lang source
  | R_get_icb_industries source => get_icb_industries lib source
  | R_get_futures source => get_futures lib source
  | R_get_covered_warrants source => get_covered_warrants lib source
  | R_get_company_overview symbol source => get_company_overview lib symbol source
  | R_get_shareholders symbol source => get_shareholders lib symbol source
  | R_get_officers symbol filter_by source => get_officers lib symbol filter_by source
  | R_get_subsidiaries symbol source => get_subsidiaries lib symbol source
  | R_get_company_news symbol source => get_company_news lib symbol source
  | R_get_company_events symbol source => get_company_events lib symbol source
  | R_get_balance_sheet symbol period lang source =>
      get_balance_sheet lib symbol period lang source
  | R_get_income_statement symbol period lang source =>
      get_income_statement lib symbol period lang source
  | R_get_cash_flow symbol period lang source => get_cash_flow lib symbol period lang source
  | R_get_financial_ratios symbol period source =>
      get_financial_ratios lib symbol period source
  | R_get_price_board symbols source => get_price_board lib symbols source
  | R_screen_stocks exchange limit lang => screen_stocks lib exchange limit lang
  | R_screen_stocks_with_filters params limit lang =>
      screen_stocks_with_filters lib params limit lang
  | R_get_fund_listing fund_type => get_fund_listing lib fund_type
  | R_filter_fund symbol => filter_fund lib symbol
  | R_get_fund_top_holding symbol => get_fund_top_holding lib symbol
  | R_get_fund_industry_holding symbol => get_fund_industry_holding lib symbol
  | R_get_fund_nav_report symbol => get_fund_nav_report lib symbol
  | R_get_fund_asset_holding symbol => get_fund_asset_holding lib symbol
  | R_msn_search_symbol query locale limit => msn_search_symbol lib query locale limit
  | R_msn_get_history symbol_id start end_ interval count_back =>
      msn_get_history lib today symbol_id start end_ interval count_back
  | R_search_crypto query limit => search_crypto lib query limit
  | R_get_crypto_history symbol_id start end_ interval count_back =>
      get_crypto_history lib today symbol_id start end_ interval count_back
  | R_search_forex query limit => search_forex lib query limit
  | R_get_forex_history symbol_id start end_ interval count_back =>
      get_forex_history lib today symbol_id start end_ interval count_back
  | R_get_foreign_trade symbol start end_ source =>
      get_foreign_trade lib today symbol start end_ source
  | R_get_insider_deals symbol source => get_insider_deals lib symbol source
  | R_get_prop_trade symbol source => get_prop_trade lib symbol source
  | R_get_market_indices => get_market_indices lib
  | R_get_index_groups => get_index_groups lib
  | R_get_indices_by_group group => get_indices_by_group lib group
  | R_get_all_sectors => get_all_sectors lib
  | R_get_all_exchanges => get_all_exchanges lib
  | R_get_sjc_gold_price date => get_sjc_gold_price lib date
  | R_get_btmc_gold_price => get_btmc_gold_price lib
  | R_get_vcb_exchange_rate date => get_vcb_exchange_rate lib today date
  | R_get_company_profile symbol source => get_company_profile lib symbol source
  | R_get_company_dividends symbol page_size page source =>
      get_company_dividends lib symbol page_size page source
  | R_get_company_affiliate symbol source => get_company_affiliate lib symbol source
  | R_get_government_bonds source => get_government_bonds lib source
  | R_get_all_bonds source => get_all_bonds lib source
  | R_get_trading_stats symbol start end_ source =>
      get_trading_stats lib today symbol start end_ source
  | R_get_order_stats symbol source => get_order_stats lib symbol source
  end.

(** The body of an HTTP response: a value the framework serialises, or a
    JSON object built field by field. *)
Inductive payload :=
| Serialised (v : value)
| Object (fields : list (string * value)).

Record response := mk_response {
  status : Z;
  body : payload
}.

(** [ErrorResponse(error=..., detail=..., timestamp=...).model_dump()] *)
Definition ErrorResponse (error detail timestamp : string) : list (string * value) :=
  [("error", VAtom (AStr error));
   ("detail", VAtom (AStr detail));
   ("timestamp", VAtom (AStr timestamp))].

(** [@app.exception_handler(HTTPException)]; [now] is the clock as the
    handler reads it. *)
Definition http_exception_handler (now : datetime) (status_code : Z) (detail : string)
  : response :=
  mk_response status_code
    (Object (ErrorResponse ("HTTP " +:+ PyStr.of_int status_code) detail (isoformat now))).

(** [@app.exception_handler(Exception)] *)
Definition general_exception_handler (now : datetime) (exc : exn) : response :=
  mk_response 500
    (Object (ErrorResponse "Internal Server Error" (exn_str exc) (isoformat now))).

(** One request through the application of [api_server.py]: the handler
    runs; what it returns is sent with status 200, a [JSONResponse] is sent
    as it is, and an exception goes to the handler registered for its
    class. *)
Definition app (lib : library) (today now : datetime) (req : request) (w : world)
  : response * world :=
  match handle lib today req w with
  | (Ok (Return v), w') => (mk_response 200 (Serialised v), w')
  | (Ok (ReturnDict fields), w') => (mk_response 200 (Object fields), w')
  | (Ok (JSONResponse status_code content), w') => (mk_response status_code (Object content), w')
  | (Raise (HTTPException status_code detail), w') =>
      (http_exception_handler now status_code detail, w')
  | (Raise e, w') => (general_exception_handler now e, w')
  end.

(* ===================================================================== *)
(** ** Notions used in the statements *)
(* ===================================================================== *)

(** *** Reading a result back from the heap *)

Definition read_dict (h : heap) (v : value) : option dict :=
  match v with
  | VRef l => match h !! l with Some (ODict d) => Some d | _ => None end
  | VAtom _ => None
  end.

(** The records behind a returned value: a list object whose items are
    dictionaries. *)
Definition read_records (h : heap) (v : value) : option (list dict) :=
  match v with
  | VRef l => match h !! l with
              | Some (OList items) => mapM (read_dict h) items
              | _ => None
              end
  | VAtom _ => None
  end.

(** A list object sits at [r]. *)
Definition list_at (r : loc) (h : heap) : Prop :=
  exists items, h !! r = Some (OList items).

Definition is_list_ref (h : heap) (v : value) : Prop :=
  match v with VRef l => list_at l h | VAtom _ => False end.

(** What the first statement of [safe_convert_to_records] leaves: the
    default that was passed, or a new empty list at the next free
    location. *)
Definition default_or_new_list (default_value : value) (h : heap) : value * heap :=
  if is_none default_value then (VRef (length h), h ++ [OList []])
  else (default_value, h).

(** *** Shapes of the input *)

Definition scalar_cell (c : cell) : bool :=
  match c with CAtom _ => true | CList _ => false end.

(** Every entry of a Series and every cell of a table is a scalar. *)
Definition scalar_object (o : obj) : bool :=
  match o with
  | OSeries entries => forallb (fun e => scalar_cell e.2) entries
  | ODataFrame _ rows => forallb (forallb scalar_cell) rows
  | _ => true
  end.




(** *** Series *)

(** Numeric narrowing and missing-to-null on a scalar, in the words of the
    specification: a missing value (None, NaN, NaT, NA) becomes [None], a
    numpy number becomes the plain number, anything else stays. *)
Definition narrow (a : atom) : atom :=
  if atom_isna a then ANone
  else match a with
       | ANpFloat _ f => AFloat f
       | ANpInt z => AInt z
       | _ => a
       end.

(** The record of one entry of a Series. *)
Definition series_record (e : label * atom) : dict :=
  [(KLabel (LStr "index"), CAtom (AStr (label_str e.1)));
   (KLabel (LStr "value"), CAtom (narrow e.2))].

Definition scalar_entry (e : label * atom) : label * cell := (e.1, CAtom e.2).

Definition atom_of (c : cell) : atom :=
  match c with CAtom a => a | CList _ => ANone end.

(** *** Tables *)

(** A float that JSON cannot carry. *)
Definition is_nan_or_inf (c : cell) : bool :=
  match c with
  | CAtom (AFloat f) | CAtom (ANpFloat _ f) => float_is_nan f || float_is_inf f
  | _ => false
  end.

(** What the clean-up loop leaves in a field. *)
Definition cleaned (c : cell) : cell :=
  match clean_action c with Ok (Assign v) => v | _ => c end.

Definition clean_dict (d : dict) : dict := map (fun kv => (kv.1, cleaned kv.2)) d.

(** One step of the clean-up loop on the dictionary. *)
Definition apply_clean (d : dict) (kv : key * cell) : dict :=
  match clean_action kv.2 with
  | Ok (Assign v) => dict_set kv.1 v d
  | _ => d
  end.

Definition no_raise (c : cell) : Prop := exists a, clean_action c = Ok a.

Definition good_dict (d : dict) : Prop :=
  NoDup (map fst d) /\ Forall (fun kv => no_raise kv.2) d.

(** The dictionary [to_dict] makes of a row. *)
Definition record_of_row (keys : list key) (row : list cell) : dict :=
  dict_of_pairs (zip keys (map maybe_box_native row)).

(** The keys of the emitted records: the labels, or the flattened
    headers. *)
Definition flat_keys (cols : columns) : list key :=
  match cols with
  | Index labels => map KLabel labels
  | MultiIndex tuples => map (fun col => KLabel (LStr (flatten_column col))) tuples
  end.

Definition clean_rows (cols : columns) (rows : list (list cell)) : list dict :=
  map (fun row => clean_dict (record_of_row (flat_keys cols) row)) rows.

(** The copy with flattened headers that a table with hierarchical
    headers gets. *)
Definition flat_copy (cols : columns) (rows : list (list cell)) : heap :=
  match cols with
  | Index _ => []
  | MultiIndex tuples =>
      [ODataFrame (Index (map (fun col => LStr (flatten_column col)) tuples)) rows]
  end.

(** Flattening in the words of the specification: the non-empty levels,
    joined with an underscore. *)
Definition join_nonempty_levels (col : list label) : string :=
  PyStr.join "_" (List.filter PyStr.nonempty (map label_str col)).

(** A level that stripping leaves alone: not empty, no underscore at
    either end. *)
Definition trimmed (s : string) : bool :=
  PyStr.nonempty s && String.eqb (PyStr.strip PyStr.is_underscore s) s.

Fixpoint underscores (n : nat) : string :=
  match n with O => EmptyString | S n' => String "_"%char (underscores n') end.

(** *** Reasoning about computations *)

(** Weakest precondition: [Q] holds of the outcome and the final state. *)
Definition wp {S A} (m : M S A) (Q : res A -> S -> Prop) (s : S) : Prop :=
  Q (m s).1 (m s).2.

(** What [Q] asks of the first half of a sequence. *)
Definition after {S A B} (k : A -> M S B) (Q : res B -> S -> Prop)
  : res A -> S -> Prop :=
  fun r s => match r with
             | Ok a => wp (k a) Q s
             | Raise e => Q (Raise e) s
             end.

(** The caller's heap [h0] is still there, untouched. *)
Definition framed (h0 h : heap) : Prop := h0 `prefix_of` h.

(** A location the call allocated. *)
Definition fresh (h0 : heap) (l : loc) : Prop := (length h0 <= l)%nat.

Definition fresh_ref (h0 : heap) (v : value) : Prop :=
  match v with VRef l => fresh h0 l | VAtom _ => True end.

(** *** Requests *)

(** Routes whose handler has the clause [except ValueError]. *)
Definition catches_value_error (req : request) : bool :=
  match req with
  | R_get_quote_history _ _ _ _ _ | R_get_intraday_data _ _ _ _
  | R_get_price_depth _ _ | R_get_price_board _ _
  | R_get_sjc_gold_price _ | R_get_vcb_exchange_rate _ => true
  | _ => false
  end.

(** Requests whose handler gets as far as calling the library:
    [health_check] calls nothing, and [get_price_board] stops before the
    call when no symbol is left. *)
Definition reaches_library (req : request) : bool :=
  match req with
  | R_health_check => false
  | R_get_price_board symbols _ =>
      match symbols_list_of symbols with [] => false | _ => true end
  | _ => true
  end.






(** A computation that makes no call into the library. *)
Definition keeps_calls {A} (m : M world A) : Prop :=
  forall w, w_calls (m w).2 = w_calls w.

(** A handler body that does not answer with a [JSONResponse]. *)
Definition plain (m : M world reply) : Prop :=
  forall w, match (m w).1 with Ok (JSONResponse _ _) => False | _ => True end.


Definition is_http_exception (e : exn) : bool :=
  match e with HTTPException _ _ => true | _ => false end.


(** What a handler leaves to the application: a value to send with status
    200, or an [HTTPException]. *)
Definition http_outcome (r : res reply) : Prop :=
  match r with
  | Ok (Return _) | Ok (ReturnDict _) => True
  | Raise (HTTPException _ _) => True
  | _ => False
  end.

(** *** Concrete inputs *)

Definition plus_infinity : pyfloat := S754_infinity false.

(** 10.5 *)
Definition ten_and_a_half : pyfloat := S754_finite false 21 (-1).

(** [pd.Series([float("inf")])] *)
Definition series_with_infinity : heap :=
  [OSeries [(LInt 0, CAtom (AFloat plus_infinity))]].

(** [pd.Series([[1, 2]])]: one entry, holding a list. *)
Definition series_with_list : heap :=
  [OSeries [(LInt 0, CList [AInt 1; AInt 2])]].



(** The table of the specification's scenario: a date and a close, the
    second row missing both. *)
Definition scenario_table : heap :=
  [ODataFrame (Index [LStr "date"; LStr "close"])
     [[CAtom (ADatetime (mk_datetime 2024 1 2 0 0 0 0)); CAtom (AFloat ten_and_a_half)];
      [CAtom ANaT; CAtom (AFloat S754_nan)]]].

(** A table with the hierarchical headers of the specification. *)
Definition price_table : heap :=
  [ODataFrame (MultiIndex [[LStr "price"; LStr "close"]; [LStr "price"; LStr "open"]])
     [[CAtom (AFloat ten_and_a_half); CAtom (AInt 10)]]].

Definition a_list : heap := [OList [VRef 1%nat]; ODict [(KLabel (LStr "a"), CAtom (AInt 1))]].

Definition some_day : datetime := mk_datetime 2024 1 2 3 4 5 0.

Definition empty_world : world := mk_world [] [].

(** A library that rejects every call as invalid. *)
Definition rejecting : library :=
  mk_library (fun _ h => (Raise (ValueError "invalid date range"), h))
             (fun v => ret v) (fun _ v => ret v).

(** A library that finds nothing. *)
Definition silent : library :=
  mk_library (fun _ h => (Ok (VAtom ANone), h)) (fun v => ret v) (fun _ v => ret v).

(** *** Records of a table *)

(** What the table branch makes of a scalar of a cell: a missing value, a
    NaN and an infinity become [None], a numpy number the plain number, a
    date-time its ISO string; [bool], [int], [str] and finite floats
    stay. *)
Definition json_atom (a : atom) : atom :=
  match a with
  | ANone | ANaT | ANA => ANone
  | AFloat f | ANpFloat _ f =>
      if float_is_nan f || float_is_inf f then ANone else AFloat f
  | ANpInt z => AInt z
  | ADatetime d => AStr (isoformat d)
  | ABool _ | AInt _ | AStr _ => a
  end.

Definition json_cell (c : cell) : cell := CAtom (json_atom (atom_of c)).

(** A value that JSON carries as it is: [None], [bool], [int], [str] or a
    finite [float]. *)
Definition json_native (c : cell) : bool :=
  match c with
  | CAtom ANone | CAtom (ABool _) | CAtom (AInt _) | CAtom (AStr _) => true
  | CAtom (AFloat f) => float_is_finite f
  | _ => false
  end.

(** [d.get(k)] *)
Fixpoint dict_get (k : key) (d : dict) : option cell :=
  match d with
  | [] => None
  | (k', v) :: d' => if decide (k = k') then Some v else dict_get k d'
  end.

(** The value of the last pair with key [k]. *)
Definition last_with_key (k : key) (pairs : list (key * cell)) : option cell :=
  dict_get k (rev pairs).

(** A table that is not empty. *)
Definition table_at (h : heap) (l : loc) (cols : columns) (rows : list (list cell)) : Prop :=
  h !! l = Some (ODataFrame cols rows) /\ frame_empty cols rows = false.

(** The outcome is a value or a [ValueError]. *)
Definition returns_or_value_error {A} (r : res A) : Prop :=
  match r with
  | Ok _ => True
  | Raise (ValueError _) => True
  | Raise _ => False
  end.

(** A Series with entries, or a table that is not empty. *)
Definition has_records (o : obj) : bool :=
  match o with
  | OSeries entries => match entries with [] => false | _ => true end
  | ODataFrame cols rows => negb (frame_empty cols rows)
  | _ => false
  end.

(** Two headers that flatten to the same key. *)
Definition colliding_table : heap :=
  [ODataFrame (MultiIndex [[LStr "a"; LStr "b_c"]; [LStr "a_b"; LStr "c"]])
     [[CAtom (AInt 1); CAtom (AInt 2)]]].

Definition a_dict : heap := [ODict [(KLabel (LStr "a"), CAtom (AFloat S754_nan))]].

(** *** Strings *)

(** [c in s] for a character. *)
Fixpoint has_char (c : ascii) (s : string) : bool :=
  match s with
  | EmptyString => false
  | String c' s' => Ascii.eqb c' c || has_char c s'
  end.

(** The first and the last character of a string satisfy [p]. *)
Definition starts_with (p : ascii -> bool) (s : string) : bool :=
  match s with EmptyString => false | String c _ => p c end.

Fixpoint ends_with (p : ascii -> bool) (s : string) : bool :=
  match s with
  | EmptyString => false
  | String c EmptyString => p c
  | String _ s' => ends_with p s'
  end.

(** A stock code as the price board passes it on: not empty, no comma, no
    white space at either end, no lower-case letter. *)
Definition clean_ticker (t : string) : bool :=
  PyStr.nonempty t && negb (has_char ","%char t)
  && String.eqb (PyStr.strip PyStr.is_space t) t
  && String.eqb (PyStr.upper t) t.

(** *** Statuses *)

(** The statuses with which the handler of a route can fail. *)
Definition failure_statuses (req : request) : list Z :=
  match req with
  | R_health_check => []
  | R_readiness_check => [503]
  | R_get_indices_by_group _ => [404; 500]
  | _ => if catches_value_error req then [400; 500] else [500]
  end.

(** The outcome of a handler is a value, or fails with one of [allowed]. *)
Definition fails_within (allowed : list Z) (r : res reply) : Prop :=
  match r with
  | Ok (Return _) | Ok (ReturnDict _) => True
  | Ok (JSONResponse s _) | Raise (HTTPException s _) => s ∈ allowed
  | Raise _ => False
  end.

(** The library raises no exception of the web framework. *)
Definition no_http_exception (lib : library) : Prop :=
  forall c h e, (accessor lib c h).1 = Raise e -> is_http_exception e = false.

(** *** What the library returns *)







(** *** The quote history, and what a request writes to *)




(** The library writes to no object that exists. *)
Definition keeps_objects (lib : library) : Prop :=
  (forall c h, h `prefix_of` (accessor lib c h).2) /\
  (forall v h, h `prefix_of` (crypto_rows lib v h).2) /\
  (forall name v h, h `prefix_of` (items_records lib name v h).2).

(** A computation that writes to no object of a heap [h0] it finds
    untouched. *)
Definition frames {A} (m : M world A) : Prop :=
  forall h0 w, h0 `prefix_of` w_heap w -> h0 `prefix_of` w_heap (m w).2.


(* ===================================================================== *)
(** ** Running computations *)
(* ===================================================================== *)

Arguments bind : simpl never.
Arguments wp : simpl never.

Lemma bind_ok {S A B} (m : M S A) (k : A -> M S B) s a s' :
  m s = (Ok a, s') -> bind m k s = k a s'.
Proof. unfold bind. by intros ->. Qed.

Lemma bind_raise {S A B} (m : M S A) (k : A -> M S B) s e s' :
  m s = (Raise e, s') -> bind m k s = (Raise e, s').
Proof. unfold bind. by intros ->. Qed.

Lemma for_each_cons {S A} (x : A) xs (body : A -> M S unit) s s' :
  body x s = (Ok tt, s') -> for_each (x :: xs) body s = for_each xs body s'.
Proof. intros H. simpl. erewrite bind_ok; [|exact H]. reflexivity. Qed.


Lemma load_run (h : heap) l o : h !! l = Some o -> load l h = (Ok o, h).
Proof. unfold load. by intros ->. Qed.

(** Run the first computation of a sequence. *)
Tactic Notation "step" tactic3(tac) :=
  cbv beta iota;
  lazymatch goal with
  | |- bind ?m ?k ?s = _ => erewrite (bind_ok m k s); [|tac]
  end;
  cbv beta iota.

Lemma wp_ret {S A} (a : A) (Q : res A -> S -> Prop) s : Q (Ok a) s -> wp (ret a) Q s.
Proof. done. Qed.

Lemma wp_raise {S A} e (Q : res A -> S -> Prop) s : Q (Raise e) s -> wp (raise e) Q s.
Proof. done. Qed.

Lemma wp_lift_res {S A} (r : res A) (Q : res A -> S -> Prop) s :
  Q r s -> wp (lift_res r) Q s.
Proof. done. Qed.

Lemma wp_bind {S A B} (m : M S A) (k : A -> M S B) Q s :
  wp m (after k Q) s -> wp (bind m k) Q s.
Proof.
  unfold wp, after, bind. destruct (m s) as [[a|e] s']; simpl; done.
Qed.

Lemma wp_mono {S A} (m : M S A) (Q Q' : res A -> S -> Prop) s :
  (forall r s', Q r s' -> Q' r s') -> wp m Q s -> wp m Q' s.
Proof. unfold wp. auto. Qed.

(** A loop keeps what each round keeps, whether it ends or raises. *)
Lemma wp_for_each {S A} (I : S -> Prop) (xs : list A) (body : A -> M S unit) s :
  I s ->
  (forall x s', x ∈ xs -> I s' -> wp (body x) (fun _ s'' => I s'') s') ->
  wp (for_each xs body) (fun _ s' => I s') s.
Proof.
  revert s. induction xs as [|x xs IH]; intros s Hs Hbody; simpl.
  - by apply wp_ret.
  - apply wp_bind.
    eapply wp_mono; [|apply Hbody; [left|done]].
    intros [[]|e] s' Hs'; simpl; [|done].
    apply IH; [done|]. intros y s'' Hy. apply Hbody. by right.
Qed.

Lemma wp_alloc o (h : heap) (Q : res loc -> heap -> Prop) :
  Q (Ok (length h)) (h ++ [o]) -> wp (alloc o) Q h.
Proof. done. Qed.

Lemma wp_load l (h : heap) (Q : res obj -> heap -> Prop) :
  Q (Ok (default OOther (h !! l))) h -> wp (load l) Q h.
Proof. done. Qed.

Lemma wp_store l o (h : heap) (Q : res unit -> heap -> Prop) :
  Q (Ok tt) (<[l := o]> h) -> wp (store l o) Q h.
Proof. done. Qed.

Lemma default_some (h : heap) l o :
  default OOther (h !! l) = o -> o <> OOther -> h !! l = Some o.
Proof. destruct (h !! l); simpl; congruence. Qed.

(* ===================================================================== *)
(** ** The normaliser writes to nothing it was given *)
(* ===================================================================== *)

Section Frame.

Variable h0 : heap.

Lemma framed_alloc o h (Q : res loc -> heap -> Prop) :
  framed h0 h ->
  (forall l h', framed h0 h' -> fresh h0 l -> h' !! l = Some o -> Q (Ok l) h') ->
  wp (alloc o) Q h.
Proof.
  intros Hh HQ. apply wp_alloc. apply HQ.
  - by apply prefix_app_r.
  - by apply prefix_length.
  - by apply list_lookup_middle.
Qed.

Lemma framed_store l o h :
  framed h0 h -> fresh h0 l -> framed h0 (<[l := o]> h).
Proof.
  unfold framed, fresh. intros [k ->] Hl.
  rewrite insert_app_r_alt by done. by eexists.
Qed.

Lemma framed_dict_setitem r k v h :
  framed h0 h -> fresh h0 r -> wp (dict_setitem r k v) (fun _ h' => framed h0 h') h.
Proof.
  intros Hh Hr. unfold dict_setitem. apply wp_bind, wp_load.
  simpl. destruct (default OOther (h !! r)); try by apply wp_raise.
  apply wp_store. by apply framed_store.
Qed.

Lemma framed_list_append r x h :
  framed h0 h -> fresh h0 r -> wp (list_append r x) (fun _ h' => framed h0 h') h.
Proof.
  intros Hh Hr. unfold list_append. apply wp_bind, wp_load.
  simpl. destruct (default OOther (h !! r)); try by apply wp_raise.
  apply wp_store. by apply framed_store.
Qed.

Lemma framed_clean_record v h :
  framed h0 h -> fresh_ref h0 v -> wp (clean_record v) (fun _ h' => framed h0 h') h.
Proof.
  intros Hh Hv. destruct v as [a|r]; simpl; [by apply wp_raise|].
  apply wp_bind, wp_load. simpl.
  destruct (default OOther (h !! r)); try by apply wp_raise.
  apply wp_for_each; [done|]. intros [k c] h' _ Hh'.
  unfold clean_field. apply wp_bind, wp_lift_res.
  destruct (clean_action _) as [[|v]|e]; simpl; try done.
  by apply framed_dict_setitem.
Qed.

Lemma framed_series_entry r entry h :
  framed h0 h -> fresh h0 r -> wp (series_entry r entry) (fun _ h' => framed h0 h') h.
Proof.
  intros Hh Hr. unfold series_entry. apply wp_bind, wp_lift_res.
  destruct (series_value _) as [v|e]; simpl; [|done].
  apply wp_bind, framed_alloc; [done|]. intros l h' Hh' _ _. simpl.
  by apply framed_list_append.
Qed.

Lemma framed_alloc_records keys rows h (Q : res (list value) -> heap -> Prop) :
  framed h0 h ->
  (forall ds h', framed h0 h' -> Forall (fresh_ref h0) ds -> Q (Ok ds) h') ->
  wp (alloc_records keys rows) Q h.
Proof.
  revert h Q. induction rows as [|row rows IH]; intros h Q Hh HQ; simpl.
  - apply wp_ret. by apply HQ.
  - apply wp_bind, framed_alloc; [done|]. intros l h' Hh' Hl _. simpl.
    apply wp_bind, IH; [done|]. intros ds h'' Hh'' Hds. simpl.
    apply wp_ret, HQ; [done|]. by constructor.
Qed.

Lemma framed_to_dict_records df h (Q : res loc -> heap -> Prop) :
  framed h0 h ->
  (forall l ds h', framed h0 h' -> Forall (fresh_ref h0) ds ->
                   h' !! l = Some (OList ds) -> Q (Ok l) h') ->
  (forall e h', framed h0 h' -> Q (Raise e) h') ->
  wp (to_dict_records df) Q h.
Proof.
  intros Hh HQ HE. unfold to_dict_records. apply wp_bind, wp_load. simpl.
  destruct (default OOther (h !! df)); try by (apply wp_raise, HE).
  apply wp_bind, framed_alloc_records; [done|]. intros ds h' Hh' Hds. simpl.
  apply framed_alloc; [done|]. intros l h'' Hh'' _ Hl. by eapply HQ.
Qed.

Lemma framed_safe_convert_to_records df default_value h :
  framed h0 h ->
  wp (safe_convert_to_records df default_value) (fun _ h' => framed h0 h') h.
Proof.
  intros Hh. unfold safe_convert_to_records.
  apply wp_bind.
  assert (wp (if is_none default_value
              then l <- alloc (OList []);; ret (VRef l)
              else ret default_value)
             (fun r h' => framed h0 h' /\ exists d, r = Ok d) h) as Hd.
  { destruct (is_none default_value).
    - apply wp_bind, framed_alloc; [done|]. intros l h' Hh' _ _. simpl.
      apply wp_ret. eauto.
    - apply wp_ret. eauto. }
  eapply wp_mono; [|exact Hd]. clear Hd Hh h.
  intros r h [Hh [d ->]]. simpl.
  destruct (is_none df); [by apply wp_ret|].
  destruct df as [a|l]; [by apply wp_ret|].
  apply wp_bind, wp_load. simpl.
  destruct (default OOther (h !! l)) as [entries|cols rows|items|items|].
  - apply wp_bind, framed_alloc; [done|]. intros r h' Hh' Hr _. simpl.
    apply wp_bind.
    eapply wp_mono; [|apply (wp_for_each (framed h0)); [done|]].
    + intros [[]|e] h''; simpl; done.
    + intros entry h'' _ Hh''. by apply framed_series_entry.
  - destruct (frame_empty cols rows); [by apply wp_ret|].
    apply wp_bind.
    assert (wp (match cols with
                | Index _ => ret l
                | MultiIndex tuples =>
                    c <- alloc (ODataFrame cols rows);;
                    store c (ODataFrame
                               (Index (map (fun col => LStr (flatten_column col)) tuples))
                               rows);;;
                    ret c
                end) (fun r h' => framed h0 h' /\ exists c, r = Ok c) h) as Hc.
    { destruct cols.
      - apply wp_ret. eauto.
      - apply wp_bind, framed_alloc; [done|]. intros c h' Hh' Hc _. simpl.
        apply wp_bind, wp_store. simpl. apply wp_ret. split; [|eauto].
        by apply framed_store. }
    eapply wp_mono; [|exact Hc]. clear Hc Hh h.
    intros r h [Hh [c ->]]. simpl.
    apply wp_bind, framed_to_dict_records; [done| |done].
    intros recs ds h' Hh' Hds Hrecs. simpl.
    apply wp_bind, wp_load. rewrite Hrecs. simpl. apply wp_bind.
    eapply wp_mono; [|apply (wp_for_each (framed h0)); [done|]].
    + intros [[]|e] h''; simpl; done.
    + intros v h'' Hv Hh''. apply framed_clean_record; [done|].
      by eapply Forall_forall in Hds.
  - apply wp_bind, framed_alloc; [done|]. intros r h' Hh' _ _. simpl. done.
  - by apply wp_ret.
  - by apply wp_ret.
Qed.

End Frame.

(** C10.  [safe_convert_to_records] never writes to its argument: whatever
    the input and the default, and whether the call returns or raises, the
    heap before the call is a prefix of the heap after it.  Every object
    that existed (the caller's DataFrame with its column labels and its
    cells, a Series, a dict, a list) is exactly what it was; the renaming
    of hierarchical columns lands in the copy, a new object, and the call
    otherwise only allocates. *)
Theorem safe_convert_to_records_keeps_argument (df default_value : value) (h : heap) :
  h `prefix_of` (safe_convert_to_records df default_value h).2.
Proof.
  pose proof (framed_safe_convert_to_records h df default_value h) as H.
  by apply H.
Qed.

(* ===================================================================== *)
(** ** What the normaliser computes *)
(* ===================================================================== *)

Lemma forallb_Forall {A} (f : A -> bool) (l : list A) :
  forallb f l = true -> Forall (fun x => f x = true) l.
Proof.
  induction l as [|x l IH]; simpl; [by constructor|].
  intros [Hx Hl]%andb_true_iff. constructor; auto.
Qed.

(** *** The first statement *)

Lemma default_run default_value (h : heap) :
  (if is_none default_value
   then l <- alloc (OList []) ;; ret (VRef l)
   else ret default_value) h
  = (Ok (default_or_new_list default_value h).1, (default_or_new_list default_value h).2).
Proof. unfold default_or_new_list. by destruct (is_none default_value). Qed.

Lemma default_prefix default_value (h : heap) :
  h `prefix_of` (default_or_new_list default_value h).2.
Proof.
  unfold default_or_new_list. destruct (is_none default_value); simpl.
  - by apply prefix_app_r.
  - done.
Qed.

Lemma default_lookup (h : heap) l o default_value :
  h !! l = Some o -> (default_or_new_list default_value h).2 !! l = Some o.
Proof. intros H. eapply prefix_lookup_Some; [done|apply default_prefix]. Qed.

(** *** The simple shapes *)




Lemma run_dict (h : heap) l items default_value :
  h !! l = Some (ODict items) ->
  safe_convert_to_records (VRef l) default_value h
  = (Ok (VRef (length (default_or_new_list default_value h).2)),
     (default_or_new_list default_value h).2 ++ [OList [VRef l]]).
Proof.
  intros Hl. unfold safe_convert_to_records. step apply default_run. simpl.
  step (by apply load_run, default_lookup). step reflexivity. done.
Qed.

Lemma run_list (h : heap) l items default_value :
  h !! l = Some (OList items) ->
  safe_convert_to_records (VRef l) default_value h
  = (Ok (VRef l), (default_or_new_list default_value h).2).
Proof.
  intros Hl. unfold safe_convert_to_records. step apply default_run. simpl.
  step (by apply load_run, default_lookup). done.
Qed.

(** *** Series *)

Lemma series_value_scalar a : series_value (CAtom a) = Ok (CAtom (narrow a)).
Proof.
  unfold series_value, narrow, None_. simpl.
  destruct a as [| | | f | |k f| | | |]; simpl; try done.
  - by destruct (float_is_nan f).
  - by destruct (float_is_nan f).
Qed.

Lemma list_append_run (pre post : heap) items x :
  list_append (length pre) x (pre ++ OList items :: post)
  = (Ok tt, pre ++ OList (items ++ [x]) :: post).
Proof.
  unfold list_append, bind, load, store. simpl.
  rewrite list_lookup_middle by done. simpl.
  rewrite insert_app_r_alt by done. by rewrite Nat.sub_diag.
Qed.

Lemma series_entry_run (pre : heap) acc (ds : heap) e :
  series_entry (length pre) (scalar_entry e) (pre ++ OList acc :: ds)
  = (Ok tt, pre ++ OList (acc ++ [VRef (length pre + 1 + length ds)])
                :: ds ++ [ODict (series_record e)]).
Proof.
  unfold series_entry, scalar_entry. simpl. rewrite series_value_scalar.
  erewrite bind_ok; [|reflexivity].
  erewrite bind_ok; [|reflexivity].
  rewrite <- app_assoc. simpl. rewrite list_append_run.
  rewrite length_app. simpl.
  replace (length pre + S (length ds))%nat with (length pre + 1 + length ds)%nat by lia.
  done.
Qed.

(** The loop of the Series branch, from any point of its run. *)
Lemma series_loop (entries : list (label * atom)) : forall (pre : heap) acc (ds : heap),
  for_each (map scalar_entry entries) (series_entry (length pre))
           (pre ++ OList acc :: ds)
  = (Ok tt,
     pre ++ OList (acc ++ map VRef (seq (length pre + 1 + length ds) (length entries)))
         :: ds ++ map (fun e => ODict (series_record e)) entries).
Proof.
  induction entries as [|e entries IH]; intros pre acc ds.
  - simpl. by rewrite !app_nil_r.
  - rewrite map_cons. erewrite for_each_cons; [|apply series_entry_run].
    rewrite IH. rewrite <- !app_assoc. simpl.
    rewrite length_app. simpl.
    replace (length pre + 1 + (length ds + 1))%nat
      with (S (length pre + 1 + length ds)) by lia.
    done.
Qed.

Lemma series_run (h : heap) l (entries : list (label * atom)) default_value :
  h !! l = Some (OSeries (map scalar_entry entries)) ->
  let h1 := (default_or_new_list default_value h).2 in
  safe_convert_to_records (VRef l) default_value h
  = (Ok (VRef (length h1)),
     h1 ++ OList (map VRef (seq (length h1 + 1) (length entries)))
        :: map (fun e => ODict (series_record e)) entries).
Proof.
  intros Hl h1. unfold safe_convert_to_records.
  step apply default_run. simpl. fold h1.
  assert (h1 !! l = Some (OSeries (map scalar_entry entries))) as Hl1
    by by apply default_lookup.
  clearbody h1.
  step by apply load_run.
  step reflexivity.
  step apply (series_loop entries h1 [] []).
  simpl. by rewrite Nat.add_0_r.
Qed.

Lemma read_dicts_at (pre post : heap) (ds : list dict) :
  mapM (read_dict (pre ++ map ODict ds ++ post))
       (map VRef (seq (length pre) (length ds))) = Some ds.
Proof.
  apply mapM_Some. apply Forall2_same_length_lookup. split.
  - by rewrite length_map, length_seq.
  - intros i v d Hv Hd. rewrite list_lookup_fmap in Hv.
    destruct (seq _ _ !! i) as [j|] eqn:Hj; [|done]. simpl in Hv. injection Hv as <-.
    apply lookup_seq in Hj as [-> Hi]. simpl.
    rewrite lookup_app_r by lia.
    replace (length pre + i - length pre)%nat with i by lia.
    rewrite lookup_app_l by (by rewrite length_map).
    by rewrite list_lookup_fmap, Hd.
Qed.

Lemma scalar_entries (entries : list (label * cell)) :
  forallb (fun e => scalar_cell e.2) entries = true ->
  entries = map scalar_entry (map (fun e => (e.1, atom_of e.2)) entries).
Proof.
  intros H%forallb_Forall.
  induction H as [|[k c] entries Hc _ IH]; [done|].
  simpl. rewrite <- IH. destruct c; [done|discriminate].
Qed.



(** *** Dictionaries *)

Lemma dict_set_cons k v k' v' (d : dict) :
  dict_set k v ((k', v') :: d)
  = if decide (k = k') then (k', v) :: d else (k', v') :: dict_set k v d.
Proof. reflexivity. Qed.

(** Assigning to a key that is there replaces its value, in place. *)
Lemma dict_set_middle (done_ rest : dict) k v0 v :
  k ∉ map fst done_ ->
  dict_set k v (done_ ++ (k, v0) :: rest) = done_ ++ (k, v) :: rest.
Proof.
  induction done_ as [|[k' v'] done_ IH]; intros Hk.
  - rewrite app_nil_l, dict_set_cons. case_decide; done.
  - rewrite <- !app_comm_cons, dict_set_cons. case_decide as Hkk.
    + subst. exfalso. apply Hk. rewrite map_cons. by left.
    + f_equal. apply IH. intros H. apply Hk. rewrite map_cons. by right.
Qed.

Lemma dict_set_keys k v (d : dict) :
  map fst (dict_set k v d)
  = if decide (k ∈ map fst d) then map fst d else map fst d ++ [k].
Proof.
  induction d as [|[k' v'] d IH].
  - rewrite decide_False; [done|]. by intros H%elem_of_nil.
  - rewrite dict_set_cons.
    destruct (decide (k = k')) as [->|Hne].
    + rewrite decide_True; [done|]. rewrite map_cons. by left.
    + rewrite (map_cons _ _ (dict_set k v d)), IH.
      destruct (decide (k ∈ map fst d)) as [Hin|Hnin].
      * rewrite decide_True; [done|]. rewrite map_cons. by right.
      * rewrite decide_False; [done|].
        rewrite map_cons. by intros [?|?]%elem_of_cons.
Qed.

Lemma dict_set_NoDup k v (d : dict) :
  NoDup (map fst d) -> NoDup (map fst (dict_set k v d)).
Proof.
  intros Hd. rewrite dict_set_keys. case_decide; [done|].
  apply NoDup_app. split_and!; [done| |apply NoDup_singleton].
  intros x Hx ->%list_elem_of_singleton. done.
Qed.

Lemma dict_set_values (P : cell -> Prop) k v (d : dict) :
  P v -> Forall (fun kv => P kv.2) d -> Forall (fun kv => P kv.2) (dict_set k v d).
Proof.
  intros Hv. induction d as [|[k' v'] d IH]; intros Hd.
  - by constructor.
  - inversion Hd; subst. rewrite dict_set_cons. case_decide; constructor; auto.
Qed.

(** A dictionary built from pairs has each key once, and only values of
    the pairs. *)
Lemma dict_of_pairs_spec (P : cell -> Prop) (pairs : list (key * cell)) :
  Forall (fun kv => P kv.2) pairs ->
  NoDup (map fst (dict_of_pairs pairs)) /\ Forall (fun kv => P kv.2) (dict_of_pairs pairs).
Proof.
  unfold dict_of_pairs. intros Hp.
  assert (NoDup (map fst ([] : dict)) /\ Forall (fun kv : key * cell => P kv.2) []) as Hinit.
  { split; constructor. }
  revert Hinit. generalize ([] : dict).
  induction Hp as [|[k v] pairs Hkv Hp IH]; intros d [Hnd Hd]; simpl; [done|].
  apply IH. split; [by apply dict_set_NoDup|by apply dict_set_values].
Qed.

(** Walking over the items of a dictionary and assigning to the key in
    hand is a map over its values. *)
Lemma fold_apply_clean (todo : dict) : forall done_ : dict,
  NoDup (map fst (done_ ++ todo)) ->
  fold_left apply_clean todo (done_ ++ todo) = done_ ++ clean_dict todo.
Proof.
  induction todo as [|[k v] todo IH]; intros done_ Hnd; simpl; [done|].
  assert (k ∉ map fst done_) as Hk.
  { rewrite map_app in Hnd. apply NoDup_app in Hnd as (_ & Hdisj & _).
    intros Hin. apply (Hdisj k Hin). simpl. by left. }
  assert (apply_clean (done_ ++ (k, v) :: todo) (k, v)
          = (done_ ++ [(k, cleaned v)]) ++ todo) as ->.
  { unfold apply_clean, cleaned. simpl. rewrite <- app_assoc. simpl.
    destruct (clean_action v) as [[|v']|e]; try done. by apply dict_set_middle. }
  rewrite IH.
  - by rewrite <- app_assoc.
  - rewrite <- app_assoc. simpl. by rewrite !map_app in *.
Qed.

(** *** Tables *)

Lemma clean_field_run (pre post : heap) (cur : dict) kv :
  no_raise kv.2 ->
  clean_field (length pre) kv (pre ++ ODict cur :: post)
  = (Ok tt, pre ++ ODict (apply_clean cur kv) :: post).
Proof.
  intros [a Ha]. unfold clean_field, apply_clean. rewrite Ha.
  step reflexivity. destruct a as [|v]; [done|].
  unfold dict_setitem. step (by apply load_run, list_lookup_middle).
  unfold store. rewrite insert_app_r_alt by done. by rewrite Nat.sub_diag.
Qed.

Lemma clean_fields_run (todo : dict) : forall (pre post : heap) (cur : dict),
  Forall (fun kv => no_raise kv.2) todo ->
  for_each todo (clean_field (length pre)) (pre ++ ODict cur :: post)
  = (Ok tt, pre ++ ODict (fold_left apply_clean todo cur) :: post).
Proof.
  induction todo as [|kv todo IH]; intros pre post cur Hok; [done|].
  inversion Hok; subst.
  erewrite for_each_cons; [|by apply clean_field_run].
  by rewrite IH.
Qed.

Lemma clean_record_run (pre post : heap) (d : dict) :
  good_dict d ->
  clean_record (VRef (length pre)) (pre ++ ODict d :: post)
  = (Ok tt, pre ++ ODict (clean_dict d) :: post).
Proof.
  intros [Hnd Hok]. unfold clean_record.
  step (by apply load_run, list_lookup_middle).
  rewrite clean_fields_run by done.
  pose proof (fold_apply_clean d [] Hnd) as H. rewrite !app_nil_l in H. by rewrite H.
Qed.

Lemma clean_records_run (ds : list dict) : forall pre post : heap,
  Forall good_dict ds ->
  for_each (map VRef (seq (length pre) (length ds))) clean_record
           (pre ++ map ODict ds ++ post)
  = (Ok tt, pre ++ map ODict (map clean_dict ds) ++ post).
Proof.
  induction ds as [|d ds IH]; intros pre post Hok; [done|].
  inversion Hok; subst. cbn [length seq map app].
  erewrite for_each_cons; [|by apply clean_record_run].
  pose proof (IH (pre ++ [ODict (clean_dict d)]) post) as IH'.
  rewrite length_app in IH'. simpl in IH'. rewrite Nat.add_1_r in IH'.
  rewrite <- !app_assoc in IH'. simpl in IH'. by apply IH'.
Qed.

Lemma alloc_records_run keys (rows : list (list cell)) : forall h : heap,
  alloc_records keys rows h
  = (Ok (map VRef (seq (length h) (length rows))),
     h ++ map (fun row => ODict (record_of_row keys row)) rows).
Proof.
  induction rows as [|row rows IH]; intros h; simpl.
  - by rewrite app_nil_r.
  - step reflexivity. step apply IH.
    unfold ret. rewrite length_app. simpl. rewrite Nat.add_1_r.
    by rewrite <- app_assoc.
Qed.

Lemma lookup_last_of_three {A} (f : A -> obj) (pre : heap) (xs : list A) o :
  (pre ++ map f xs ++ [o]) !! (length pre + length xs)%nat = Some o.
Proof.
  rewrite app_assoc. apply list_lookup_middle. by rewrite length_app, length_map.
Qed.

Lemma to_dict_records_run (h : heap) df cols rows :
  h !! df = Some (ODataFrame cols rows) ->
  to_dict_records df h
  = (Ok (length h + length rows)%nat,
     h ++ map (fun row => ODict (record_of_row (column_keys cols) row)) rows
       ++ [OList (map VRef (seq (length h) (length rows)))]).
Proof.
  intros Hdf. unfold to_dict_records.
  step (by apply load_run). step apply alloc_records_run.
  unfold alloc. by rewrite length_app, length_map, <- app_assoc.
Qed.

(** The clean-up of a scalar never raises. *)
Lemma scalar_no_raise c : scalar_cell c = true -> no_raise (maybe_box_native c).
Proof.
  destruct c as [a|]; [|done]. intros _. unfold no_raise.
  destruct a as [| | |f| |k f| | | |]; simpl; try destruct (_ || _); eauto.
Qed.

Lemma record_of_row_good keys row :
  Forall (fun c => scalar_cell c = true) row -> good_dict (record_of_row keys row).
Proof.
  intros Hrow. apply (dict_of_pairs_spec no_raise).
  apply Forall_forall. intros [k c] Hin. apply elem_of_zip_r in Hin. simpl.
  apply list_elem_of_fmap in Hin as (c0 & -> & Hc0).
  apply scalar_no_raise. by eapply Forall_forall in Hrow.
Qed.

Lemma clean_rows_run keys (rows : list (list cell)) (pre post : heap) :
  Forall (Forall (fun c => scalar_cell c = true)) rows ->
  for_each (map VRef (seq (length pre) (length rows))) clean_record
           (pre ++ map (fun row => ODict (record_of_row keys row)) rows ++ post)
  = (Ok tt,
     pre ++ map (fun row => ODict (clean_dict (record_of_row keys row))) rows ++ post).
Proof.
  intros Hrows.
  pose proof (clean_records_run (map (record_of_row keys) rows) pre post) as H.
  rewrite length_map, !map_map in H. apply H.
  apply Forall_forall. intros dct Hin.
  apply list_elem_of_fmap in Hin as (row & -> & Hrow).
  apply record_of_row_good. by eapply Forall_forall in Hrows.
Qed.

(** The whole run on a table that is not empty and holds scalars. *)
Lemma frame_run (h : heap) l cols rows default_value :
  h !! l = Some (ODataFrame cols rows) ->
  frame_empty cols rows = false ->
  forallb (forallb scalar_cell) rows = true ->
  let h1 := (default_or_new_list default_value h).2 ++ flat_copy cols rows in
  safe_convert_to_records (VRef l) default_value h
  = (Ok (VRef (length h1 + length rows)),
     h1 ++ map ODict (clean_rows cols rows)
        ++ [OList (map VRef (seq (length h1) (length rows)))]).
Proof.
  intros Hl Hne Hrows%forallb_Forall h1.
  assert (Forall (Forall (fun c => scalar_cell c = true)) rows) as Hscalar.
  { eapply Forall_impl; [exact Hrows|]. intros row. apply forallb_Forall. }
  clear Hrows. unfold safe_convert_to_records.
  step apply default_run. simpl.
  assert ((default_or_new_list default_value h).2 !! l = Some (ODataFrame cols rows))
    as Hl0 by by apply default_lookup.
  revert h1 Hl0. generalize (default_or_new_list default_value h).2 as h0.
  generalize (default_or_new_list default_value h).1 as d.
  intros d h0 h1 Hl0.
  step (by apply load_run). rewrite Hne.
  assert (exists c,
    match cols with
    | Index _ => ret l
    | MultiIndex tuples =>
        c <- alloc (ODataFrame cols rows);;
        store c (ODataFrame (Index (map (fun col => LStr (flatten_column col)) tuples))
                            rows);;;
        ret c
    end h0 = (Ok c, h1) /\
    exists labels, h1 !! c = Some (ODataFrame (Index labels) rows) /\
                   map KLabel labels = flat_keys cols) as (c & Hc & labels & Hlab & Hkeys).
  { subst h1. destruct cols as [labels|tuples]; simpl.
    - exists l. rewrite app_nil_r. eauto.
    - exists (length h0). split.
      + step reflexivity. step reflexivity. unfold ret. f_equal.
        rewrite insert_app_r_alt by done. by rewrite Nat.sub_diag.
      + eexists. split; [by apply list_lookup_middle|]. by rewrite map_map. }
  step exact Hc. clearbody h1.
  step (by apply to_dict_records_run).
  step (apply load_run, lookup_last_of_three).
  simpl column_keys. rewrite Hkeys.
  step (by apply clean_rows_run).
  unfold ret, clean_rows. by rewrite map_map.
Qed.

Lemma frame_records (h : heap) l cols rows default_value :
  h !! l = Some (ODataFrame cols rows) ->
  frame_empty cols rows = false ->
  forallb (forallb scalar_cell) rows = true ->
  exists v h',
    safe_convert_to_records (VRef l) default_value h = (Ok v, h') /\
    read_records h' v = Some (clean_rows cols rows).
Proof.
  intros Hl Hne Hrows. eexists _, _. split; [by apply frame_run|].
  set (h1 := (default_or_new_list default_value h).2 ++ flat_copy cols rows).
  assert (length (clean_rows cols rows) = length rows) as Hlen
    by (unfold clean_rows; by rewrite length_map).
  unfold read_records.
  replace (length h1 + length rows)%nat
    with (length h1 + length (clean_rows cols rows))%nat by by rewrite Hlen.
  rewrite lookup_last_of_three, <- Hlen. apply read_dicts_at.
Qed.

(** The clean-up loop leaves no NaN and no infinity in a field. *)
Lemma cleaned_finite c : is_nan_or_inf (cleaned c) = false.
Proof.
  unfold cleaned. destruct c as [a|items].
  - destruct a as [| | |f| |k f| | | |]; simpl; try done.
    + destruct (float_is_nan f || float_is_inf f) eqn:E; simpl; done.
    + destruct k; destruct (float_is_nan f || float_is_inf f) eqn:E; simpl; done.
  - destruct items as [|a [|b rest]]; simpl; try done. by destruct (atom_isna a).
Qed.

(** The records of a table hold no NaN and no infinity. *)
Lemma frame_records_finite (h : heap) l cols rows default_value :
  h !! l = Some (ODataFrame cols rows) ->
  frame_empty cols rows = false ->
  forallb (forallb scalar_cell) rows = true ->
  exists v h' records,
    safe_convert_to_records (VRef l) default_value h = (Ok v, h') /\
    read_records h' v = Some records /\
    Forall (Forall (fun kv => is_nan_or_inf kv.2 = false)) records.
Proof.
  intros Hl Hne Hrows.
  destruct (frame_records h l cols rows default_value Hl Hne Hrows) as (v & h' & Hrun & Hread).
  exists v, h', (clean_rows cols rows). split_and!; [done|done|].
  unfold clean_rows, clean_dict. apply Forall_fmap, Forall_true. intros row.
  apply Forall_fmap, Forall_true. intros kv. apply cleaned_finite.
Qed.

(** The scenario of the specification: a date and a close, the second row
    missing both. *)
Example scenario_two_rows :
  exists v h',
    safe_convert_to_records (VRef 0%nat) (VAtom ANone) scenario_table = (Ok v, h') /\
    read_records h' v
    = Some [[(KLabel (LStr "date"), CAtom (AStr "2024-01-02T00:00:00"));
             (KLabel (LStr "close"), CAtom (AFloat ten_and_a_half))];
            [(KLabel (LStr "date"), CAtom ANone);
             (KLabel (LStr "close"), CAtom ANone)]].
Proof. eexists _, _. split; reflexivity. Qed.

(** C1.  The Series branch lets an infinity through: the Series holding
    the one entry [0 -> inf] gives the one record
    [{"index": "0", "value": inf}], whose value is an infinite float.  (The
    branch for tables turns the same value into [None], see
    [frame_records_finite].) *)
Theorem series_keeps_infinity :
  exists v h',
    safe_convert_to_records (VRef 0%nat) (VAtom ANone) series_with_infinity = (Ok v, h') /\
    read_records h' v
    = Some [[(KLabel (LStr "index"), CAtom (AStr "0"));
             (KLabel (LStr "value"), CAtom (AFloat plus_infinity))]] /\
    is_nan_or_inf (CAtom (AFloat plus_infinity)) = true.
Proof. eexists _, _. split_and!; reflexivity. Qed.

(* ===================================================================== *)
(** ** Termination, defaults and empty inputs *)
(* ===================================================================== *)







(* ===================================================================== *)
(** ** Idempotence *)
(* ===================================================================== *)

Lemma list_at_alloc r (h : heap) o : list_at r h -> list_at r (h ++ [o]).
Proof. intros [items H]. exists items. by apply lookup_app_l_Some. Qed.

Lemma list_at_new (h : heap) items : list_at (length h) (h ++ [OList items]).
Proof. exists items. by apply list_lookup_middle. Qed.

Lemma list_at_store_list r (h : heap) items :
  list_at r h -> list_at r (<[r := OList items]> h).
Proof.
  intros [old H]. exists items. apply list_lookup_insert_eq.
  by eapply lookup_lt_Some.
Qed.

Lemma list_at_store_dict r r' (h : heap) d d' :
  list_at r h -> h !! r' = Some (ODict d) -> list_at r (<[r' := ODict d']> h).
Proof.
  intros [items H] Hd. exists items. rewrite list_lookup_insert_ne; [done|].
  intros ->. congruence.
Qed.

Lemma list_at_dict_setitem r r' k v h :
  list_at r h -> wp (dict_setitem r' k v) (fun _ h' => list_at r h') h.
Proof.
  intros Hr. unfold dict_setitem. apply wp_bind, wp_load.
  destruct (default OOther (h !! r')) as [| |d| |] eqn:E; simpl; try by apply wp_raise.
  apply wp_store. eapply list_at_store_dict; [done|]. by apply default_some.
Qed.

Lemma list_at_clean_record r v h :
  list_at r h -> wp (clean_record v) (fun _ h' => list_at r h') h.
Proof.
  intros Hr. destruct v as [a|r']; simpl; [by apply wp_raise|].
  apply wp_bind, wp_load. simpl.
  destruct (default OOther (h !! r')); try by apply wp_raise.
  apply (wp_for_each (list_at r)); [done|]. intros [k c] h' _ Hh'.
  unfold clean_field. apply wp_bind, wp_lift_res.
  destruct (clean_action _) as [[|v]|e]; simpl; try done.
  by apply list_at_dict_setitem.
Qed.

Lemma list_at_series_entry r entry h :
  list_at r h -> wp (series_entry r entry) (fun _ h' => list_at r h') h.
Proof.
  intros Hr. unfold series_entry. apply wp_bind, wp_lift_res.
  destruct (series_value _) as [v|e]; simpl; [|done].
  apply wp_bind, wp_alloc. simpl.
  apply (list_at_alloc _ _ (ODict [(KLabel (LStr "index"), CAtom (AStr (label_str entry.1)));
                                   (KLabel (LStr "value"), v)])) in Hr.
  unfold list_append. apply wp_bind, wp_load. simpl.
  destruct (default OOther (_ !! r)); try by apply wp_raise.
  apply wp_store. by apply list_at_store_list.
Qed.

Lemma list_at_alloc_records keys rows r h (Q : res (list value) -> heap -> Prop) :
  list_at r h ->
  (forall ds h', list_at r h' -> Q (Ok ds) h') ->
  wp (alloc_records keys rows) Q h.
Proof.
  revert h Q. induction rows as [|row rows IH]; intros h Q Hr HQ; simpl.
  - apply wp_ret. by apply HQ.
  - apply wp_bind, wp_alloc. simpl.
    apply wp_bind, IH; [by apply list_at_alloc|]. intros ds h' Hr'. simpl.
    by apply wp_ret, HQ.
Qed.

(** Called without a default, the normaliser returns a list. *)
Lemma normalised_is_list df h :
  wp (safe_convert_to_records df (VAtom ANone))
     (fun r h' => forall v, r = Ok v -> is_list_ref h' v) h.
Proof.
  unfold safe_convert_to_records. simpl is_none. cbv iota.
  apply wp_bind, wp_bind, wp_alloc. simpl. apply wp_ret. simpl.
  set (d := length h). set (h1 := h ++ [OList []]).
  assert (list_at d h1) as Hd by apply list_at_new.
  clearbody h1 d. clear h.
  destruct (is_none df); [apply wp_ret; by intros v [= <-]|].
  destruct df as [a|l]; [apply wp_ret; by intros v [= <-]|].
  apply wp_bind, wp_load. simpl.
  destruct (default OOther (h1 !! l)) as [entries|cols rows|items|items|] eqn:E.
  - apply wp_bind, wp_alloc. simpl. apply wp_bind.
    eapply wp_mono; [|apply (wp_for_each (list_at (length h1))); [apply list_at_new|]].
    + intros [[]|e] h'' Hl; simpl; [|done]. apply wp_ret. by intros v [= <-].
    + intros entry h'' _ Hh''. by apply list_at_series_entry.
  - destruct (frame_empty cols rows); [apply wp_ret; by intros v [= <-]|].
    apply wp_bind.
    assert (wp (match cols with
                | Index _ => ret l
                | MultiIndex tuples =>
                    c <- alloc (ODataFrame cols rows);;
                    store c (ODataFrame
                               (Index (map (fun col => LStr (flatten_column col)) tuples))
                               rows);;;
                    ret c
                end) (fun r h' => list_at d h' /\ exists c, r = Ok c) h1) as Hc.
    { destruct cols.
      - apply wp_ret. eauto.
      - apply wp_bind, wp_alloc. simpl.
        apply wp_bind, wp_store. simpl. apply wp_ret. split; [|eauto].
        destruct Hd as [items Hd]. exists items.
        rewrite list_lookup_insert_ne.
        + by apply lookup_app_l_Some.
        + apply lookup_lt_Some in Hd. lia. }
    eapply wp_mono; [|exact Hc]. clear Hc Hd E h1.
    intros r h [Hd [c ->]]. simpl.
    unfold to_dict_records. apply wp_bind, wp_bind, wp_load. simpl.
    destruct (default OOther (h !! c)); try (apply wp_raise; done).
    apply wp_bind, (list_at_alloc_records _ _ d); [done|].
    intros ds h' _. simpl. apply wp_alloc. simpl.
    apply wp_bind, wp_load. rewrite list_lookup_middle by done. simpl.
    apply wp_bind.
    eapply wp_mono; [|apply (wp_for_each (list_at (length h'))); [apply list_at_new|]].
    + intros [[]|e] h'' Hl; simpl; [|done]. apply wp_ret. by intros v [= <-].
    + intros v h'' _ Hh''. by apply list_at_clean_record.
  - apply wp_bind, wp_alloc. simpl. apply wp_ret. intros v [= <-]. apply list_at_new.
  - apply wp_ret. intros v [= <-]. simpl. exists items. by apply default_some.
  - apply wp_ret. by intros v [= <-].
Qed.

(** C8.  A list passes through unchanged: the normaliser returns the very
    list it was given, and the heap after the call still holds that list
    with the items it had.  So normalising a normalised sequence again gives
    the same sequence: whatever a call without a default returned is
    returned again by a second call on it. *)
Theorem normalizer_idempotent :
  (forall (h : heap) l items default_value,
     h !! l = Some (OList items) ->
     exists h',
       safe_convert_to_records (VRef l) default_value h = (Ok (VRef l), h') /\
       h `prefix_of` h' /\
       h' !! l = Some (OList items)) /\
  (forall df (h : heap) v h',
     safe_convert_to_records df (VAtom ANone) h = (Ok v, h') ->
     exists h'',
       safe_convert_to_records v (VAtom ANone) h' = (Ok v, h'') /\
       h' `prefix_of` h'').
Proof.
  split.
  - intros h l items default_value Hl. eexists. split; [by eapply run_list|].
    split; [apply default_prefix|by apply default_lookup].
  - intros df h v h' Hrun.
    pose proof (normalised_is_list df h) as H. unfold wp in H.
    rewrite Hrun in H. specialize (H v eq_refl).
    destruct v as [a|l]; [done|]. destruct H as [items Hl].
    eexists. split; [by eapply run_list|]. apply default_prefix.
Qed.

Lemma normalizer_idempotent_witness :
  exists h',
    safe_convert_to_records (VRef 0%nat) (VAtom ANone) a_list = (Ok (VRef 0%nat), h') /\
    a_list `prefix_of` h' /\
    h' !! 0%nat = Some (OList [VRef 1%nat]).
Proof.
  apply (proj1 normalizer_idempotent a_list 0%nat [VRef 1%nat] (VAtom ANone)).
  reflexivity.
Defined.

(* ===================================================================== *)
(** ** Strings *)
(* ===================================================================== *)

Module PyStrFacts.
Import PyStr.
#[local] Arguments String.append !_ _ / : simpl nomatch.

Ltac all_chars c := destruct c as [[] [] [] [] [] [] [] []]; vm_compute; reflexivity.

Lemma upper_char_idem c : upper_char (upper_char c) = upper_char c.
Proof. all_chars c. Qed.

Lemma upper_char_comma c : Ascii.eqb (upper_char c) ","%char = Ascii.eqb c ","%char.
Proof. all_chars c. Qed.

Lemma upper_char_space c : is_space (upper_char c) = is_space c.
Proof. all_chars c. Qed.

Lemma upper_idem s : upper (upper s) = upper s.
Proof. induction s as [|c s IH]; simpl; [done|]. by rewrite upper_char_idem, IH. Qed.

Lemma upper_nonempty s : nonempty (upper s) = nonempty s.
Proof. by destruct s. Qed.


Lemma upper_lstrip s : lstrip is_space (upper s) = upper (lstrip is_space s).
Proof.
  induction s as [|c s IH]; simpl; [done|].
  rewrite upper_char_space. by destruct (is_space c).
Qed.

Lemma upper_rstrip s : rstrip is_space (upper s) = upper (rstrip is_space s).
Proof.
  induction s as [|c s IH]; simpl; [done|].
  rewrite IH, upper_char_space.
  destruct (rstrip is_space s); simpl; [|done]. by destruct (is_space c).
Qed.

Lemma upper_strip s : strip is_space (upper s) = upper (strip is_space s).
Proof. unfold strip. by rewrite upper_lstrip, upper_rstrip. Qed.

Lemma append_nil_r (s : string) : s +:+ EmptyString = s.
Proof. induction s as [|c s IH]; simpl; [done|]. by rewrite IH. Qed.

Lemma append_assoc (a b c : string) : (a +:+ b) +:+ c = a +:+ (b +:+ c).
Proof. induction a as [|x a IH]; simpl; [done|]. by rewrite IH. Qed.

Lemma lstrip_underscores n s :
  lstrip is_underscore (underscores n +:+ s) = lstrip is_underscore s.
Proof. induction n; simpl; done. Qed.

Lemma rstrip_all_underscores n : rstrip is_underscore (underscores n) = EmptyString.
Proof. induction n as [|n IH]; simpl; [done|]. by rewrite IH. Qed.

Lemma rstrip_underscores s n :
  rstrip is_underscore (s +:+ underscores n) = rstrip is_underscore s.
Proof.
  induction s as [|c s IH]; simpl.
  - apply rstrip_all_underscores.
  - by rewrite IH.
Qed.

Lemma rstrip_append p (a b : string) :
  rstrip p b <> EmptyString -> rstrip p (a +:+ b) = a +:+ rstrip p b.
Proof.
  intros Hb. induction a as [|c a IH]; simpl; [done|].
  rewrite IH. destruct (a +:+ rstrip p b) eqn:E; [|done].
  destruct a; simpl in E; [done|discriminate].
Qed.

Lemma lstrip_shorter p s : (String.length (lstrip p s) <= String.length s)%nat.
Proof.
  induction s as [|c s IH]; simpl; [done|]. destruct (p c); simpl; lia.
Qed.

Lemma rstrip_shorter p s : (String.length (rstrip p s) <= String.length s)%nat.
Proof.
  induction s as [|c s IH]; simpl; [done|].
  destruct (rstrip p s); simpl in *; [destruct (p c); simpl; lia|lia].
Qed.

Lemma trimmed_spec s :
  trimmed s = true -> s <> EmptyString /\ strip is_underscore s = s.
Proof.
  unfold trimmed. intros [Hne Heq]%andb_true_iff. split.
  - by destruct s.
  - by apply String.eqb_eq.
Qed.

Lemma trimmed_lstrip s : trimmed s = true -> lstrip is_underscore s = s.
Proof.
  intros [Hne Hs]%trimmed_spec. unfold strip in Hs.
  destruct s as [|c s]; [done|]. simpl in *.
  destruct (is_underscore c); [|done].
  exfalso.
  pose proof (rstrip_shorter is_underscore (lstrip is_underscore s)) as H1.
  pose proof (lstrip_shorter is_underscore s) as H2.
  rewrite Hs in H1. simpl in H1. lia.
Qed.

Lemma trimmed_rstrip s : trimmed s = true -> rstrip is_underscore s = s.
Proof.
  intros H. pose proof (trimmed_lstrip s H) as Hl.
  apply trimmed_spec in H as [_ Hs].
  unfold strip in Hs. by rewrite Hl in Hs.
Qed.

Lemma lstrip_append_trimmed a b :
  trimmed a = true -> lstrip is_underscore (a +:+ b) = a +:+ b.
Proof.
  intros H. pose proof (trimmed_lstrip a H) as Hl.
  apply trimmed_spec in H as [Hne _].
  destruct a as [|c a]; [done|]. simpl in *.
  destruct (is_underscore c); [|done].
  pose proof (lstrip_shorter is_underscore a) as Hlen.
  rewrite Hl in Hlen. simpl in Hlen. lia.
Qed.

Lemma join_cons sep x y (rest : list string) :
  join sep (x :: y :: rest) = x +:+ sep +:+ join sep (y :: rest).
Proof. done. Qed.

Lemma join_app sep (a b : list string) :
  a <> [] -> b <> [] -> join sep (a ++ b) = join sep a +:+ sep +:+ join sep b.
Proof.
  intros Ha Hb. induction a as [|x a IH]; [done|].
  destruct a as [|y a].
  - destruct b as [|z b]; [done|]. done.
  - rewrite <- !app_comm_cons, !join_cons. rewrite <- app_comm_cons in IH.
    rewrite IH by done. by rewrite !append_assoc.
Qed.

Lemma join_all_empty k : join "_" (replicate k EmptyString) = underscores (pred k).
Proof.
  induction k as [|k IH]; [done|]. cbn [replicate].
  destruct k as [|k]; [done|]. cbn [replicate] in *. rewrite join_cons, IH. done.
Qed.

Lemma underscores_snoc n : underscores n +:+ "_" = underscores (S n).
Proof. induction n as [|n IH]; [done|]. simpl in *. by rewrite IH. Qed.

(** Empty levels in front give as many underscores in front. *)
Lemma join_leading_empty m (rest : list string) :
  rest <> [] ->
  join "_" (replicate m EmptyString ++ rest) = underscores m +:+ join "_" rest.
Proof.
  intros Hne. destruct m as [|m]; [done|].
  rewrite join_app, join_all_empty by done. simpl pred.
  by rewrite <- append_assoc, underscores_snoc.
Qed.

Lemma join_trailing_empty n (mid : list string) :
  mid <> [] ->
  join "_" (mid ++ replicate n EmptyString) = join "_" mid +:+ underscores n.
Proof.
  intros Hne. destruct n as [|n].
  - simpl. by rewrite app_nil_r, append_nil_r.
  - rewrite join_app, join_all_empty by done. done.
Qed.

Lemma join_trimmed (mid : list string) :
  mid <> [] -> Forall (fun s => trimmed s = true) mid ->
  lstrip is_underscore (join "_" mid) = join "_" mid /\
  rstrip is_underscore (join "_" mid) = join "_" mid /\
  join "_" mid <> EmptyString.
Proof.
  intros Hne Hmid. induction Hmid as [|x mid Hx Hmid IH]; [done|].
  destruct mid as [|y mid].
  - simpl. split_and!; [by apply trimmed_lstrip|by apply trimmed_rstrip|].
    by apply trimmed_spec in Hx as [? _].
  - rewrite join_cons. destruct IH as (_ & IHr & IHne); [done|]. split_and!.
    + by apply lstrip_append_trimmed.
    + rewrite <- append_assoc. rewrite rstrip_append; [by rewrite IHr|].
      by rewrite IHr.
    + apply trimmed_spec in Hx as [Hx _]. by destruct x.
Qed.

Lemma filter_nonempty_ends m n (mid : list string) :
  Forall (fun s => trimmed s = true) mid ->
  List.filter nonempty (replicate m EmptyString ++ mid ++ replicate n EmptyString) = mid.
Proof.
  intros Hmid. rewrite !List.filter_app.
  assert (forall k, List.filter nonempty (replicate k EmptyString) = []) as Hk.
  { induction k; simpl; done. }
  rewrite !Hk, app_nil_r. simpl.
  induction Hmid as [|x mid Hx _ IH]; [done|]. simpl.
  apply trimmed_spec in Hx as [Hx _].
  destruct x; [done|]. simpl. by rewrite IH.
Qed.

(** Joining and stripping drops the empty levels at both ends. *)
Lemma strip_join_ends m n (mid : list string) :
  Forall (fun s => trimmed s = true) mid ->
  strip is_underscore (join "_" (replicate m EmptyString ++ mid ++ replicate n EmptyString))
  = join "_" mid.
Proof.
  intros Hmid. destruct mid as [|x mid].
  - simpl. rewrite <- replicate_add, join_all_empty. unfold strip.
    rewrite <- (append_nil_r (underscores _)), lstrip_underscores. done.
  - destruct (join_trimmed (x :: mid)) as (Hl & Hr & Hne); [done|done|].
    rewrite join_leading_empty by done.
    rewrite join_trailing_empty by done.
    unfold strip. rewrite lstrip_underscores.
    assert (lstrip is_underscore (join "_" (x :: mid) +:+ underscores n)
            = join "_" (x :: mid) +:+ underscores n) as ->.
    { destruct (join "_" (x :: mid)) as [|c s] eqn:E; [done|].
      simpl in *. destruct (is_underscore c); [|done].
      pose proof (lstrip_shorter is_underscore s) as Hlen.
      rewrite Hl in Hlen. simpl in Hlen. lia. }
    by rewrite rstrip_underscores.
Qed.

End PyStrFacts.

(* ===================================================================== *)
(** ** Hierarchical column headers *)
(* ===================================================================== *)

(** C4, as amended.  A table with hierarchical headers that is not empty
    and holds scalars gives records keyed by the flattened headers: the
    levels of a header are rendered as strings and joined, all of them,
    with an underscore, and the underscores at both ends of the result are
    stripped, before any record is made.  For a header whose empty levels
    are all at its ends and whose other levels have no underscore at
    either end of their own, this is the join of the non-empty levels with
    an underscore; so ("price", "close") gives "price_close" and
    ("price", "open") gives "price_open", two different keys. *)
Theorem flattened_headers :
  (forall (h : heap) l tuples rows default_value,
     h !! l = Some (ODataFrame (MultiIndex tuples) rows) ->
     frame_empty (MultiIndex tuples) rows = false ->
     forallb (forallb scalar_cell) rows = true ->
     exists v h',
       safe_convert_to_records (VRef l) default_value h = (Ok v, h') /\
       read_records h' v
       = Some (map (fun row =>
                      clean_dict
                        (record_of_row
                           (map (fun col =>
                                   KLabel (LStr (PyStr.strip PyStr.is_underscore
                                                   (PyStr.join "_" (map label_str col)))))
                                tuples)
                           row))
                   rows)) /\
  (forall col m n levels,
     map label_str col = replicate m EmptyString ++ levels ++ replicate n EmptyString ->
     forallb trimmed levels = true ->
     flatten_column col = PyStr.join "_" levels /\
     join_nonempty_levels col = PyStr.join "_" levels) /\
  flatten_column [LStr "price"; LStr "close"] = "price_close" /\
  flatten_column [LStr "price"; LStr "open"] = "price_open" /\
  flatten_column [LStr "price"; LStr "close"] <> flatten_column [LStr "price"; LStr "open"].
Proof.
  split_and!; [| |reflexivity|reflexivity|discriminate].
  - intros h l tuples rows default_value Hl Hne Hrows.
    by apply (frame_records h l (MultiIndex tuples) rows default_value).
  - intros col m n levels Hcol Hlev%forallb_Forall.
    unfold flatten_column, join_nonempty_levels. rewrite Hcol. split.
    + by apply PyStrFacts.strip_join_ends.
    + by rewrite PyStrFacts.filter_nonempty_ends.
Qed.

Lemma flattened_headers_witness :
  exists v h',
    safe_convert_to_records (VRef 0%nat) (VAtom ANone) price_table = (Ok v, h') /\
    read_records h' v
    = Some [[(KLabel (LStr "price_close"), CAtom (AFloat ten_and_a_half));
             (KLabel (LStr "price_open"), CAtom (AInt 10))]].
Proof.
  apply (proj1 flattened_headers price_table 0%nat
           [[LStr "price"; LStr "close"]; [LStr "price"; LStr "open"]]
           [[CAtom (AFloat ten_and_a_half); CAtom (AInt 10)]] (VAtom ANone));
    reflexivity.
Defined.

(** C4, as stated, fails: an empty level in the middle of a header stays
    as a doubled underscore, and an underscore that begins a level is
    stripped with the others, where joining the non-empty levels gives
    something else. *)
Lemma flatten_column_is_not_join_nonempty :
  flatten_column [LStr "a"; LStr ""; LStr "b"] = "a__b" /\
  join_nonempty_levels [LStr "a"; LStr ""; LStr "b"] = "a_b" /\
  flatten_column [LStr "_x"; LStr "y"] = "x_y" /\
  join_nonempty_levels [LStr "_x"; LStr "y"] = "_x_y".
Proof. split_and!; reflexivity. Qed.

(* ===================================================================== *)
(** ** Handlers: calls into the library *)
(* ===================================================================== *)

Ltac unfold_handlers :=
  unfold health_check, readiness_check, get_quote_history, get_intraday_data,
    get_price_depth, get_all_symbols, get_symbols_by_group, get_symbols_by_exchange,
    get_industries, get_icb_industries, get_futures, get_covered_warrants,
    get_company_overview, get_shareholders, get_officers, get_subsidiaries,
    get_company_news, get_company_events, get_balance_sheet, get_income_statement,
    get_cash_flow, get_financial_ratios, get_price_board, screen_stocks,
    screen_stocks_with_filters, get_fund_listing, filter_fund, get_fund_top_holding,
    get_fund_industry_holding, get_fund_nav_report, get_fund_asset_holding,
    msn_search_symbol, msn_get_history, search_crypto, get_crypto_history,
    search_forex, get_forex_history, get_foreign_trade, get_insider_deals,
    get_prop_trade, get_market_indices, get_index_groups, get_indices_by_group,
    get_all_sectors, get_all_exchanges, get_sjc_gold_price, get_btmc_gold_price,
    get_vcb_exchange_rate, get_company_profile, get_company_dividends,
    get_company_affiliate, get_government_bonds, get_all_bonds, get_trading_stats,
    get_order_stats.

Lemma keeps_ret {A} (a : A) : keeps_calls (ret a).
Proof. done. Qed.

Lemma keeps_raise {A} e : keeps_calls (@raise world A e).
Proof. done. Qed.

Lemma keeps_on_heap {A} (m : M heap A) : keeps_calls (on_heap m).
Proof. intros w. unfold on_heap. by destruct (m (w_heap w)). Qed.

Lemma keeps_bind {A B} (m : M world A) (k : A -> M world B) :
  keeps_calls m -> (forall a, keeps_calls (k a)) -> keeps_calls (bind m k).
Proof.
  intros Hm Hk w. unfold bind. specialize (Hm w).
  destruct (m w) as [[a|e] w']; simpl in *; [|done]. by rewrite Hk.
Qed.

Lemma keeps_return_empty_list : keeps_calls return_empty_list.
Proof. apply keeps_bind; [apply keeps_on_heap|]. intros. apply keeps_ret. Qed.

Lemma keeps_return_records df : keeps_calls (return_records df).
Proof. apply keeps_bind; [apply keeps_on_heap|]. intros. apply keeps_ret. Qed.

Lemma keeps_return_to_dict df : keeps_calls (return_to_dict df).
Proof.
  apply keeps_bind; [apply keeps_on_heap|]. intros [|].
  - apply keeps_return_empty_list.
  - apply keeps_bind; [apply keeps_on_heap|]. intros. apply keeps_ret.
Qed.

Lemma keeps_return_items lib name df : keeps_calls (return_items lib name df).
Proof.
  apply keeps_bind; [apply keeps_on_heap|]. intros [|].
  - apply keeps_return_empty_list.
  - apply keeps_bind; [apply keeps_on_heap|]. intros. apply keeps_ret.
Qed.

Ltac keeps :=
  repeat first
    [ apply keeps_ret | apply keeps_raise | apply keeps_on_heap
    | apply keeps_return_empty_list | apply keeps_return_records
    | apply keeps_return_to_dict | apply keeps_return_items
    | apply keeps_bind; [|intros ?]
    | match goal with
      | |- keeps_calls (if ?b then _ else _) => destruct b
      | |- keeps_calls (match ?x with _ => _ end) => destruct x
      end ].

(** A handler that calls the library and then works on the result makes
    that one call, whether the library, the work or neither raises. *)
Lemma calls_after_call {A} lib c (k : value -> M world A) (handler : exn -> M world A) w :
  (forall a, keeps_calls (k a)) -> (forall e, keeps_calls (handler e)) ->
  w_calls (try_except (bind (call_upstream lib c) k) handler w).2 = w_calls w ++ [c].
Proof.
  intros Hk Hh. unfold try_except, bind, call_upstream.
  destruct (accessor lib c (w_heap w)) as [[a|e] h]; simpl.
  - specialize (Hk a (mk_world h (w_calls w ++ [c]))).
    destruct (k a _) as [[b|e] w']; simpl in *; [done|]. by rewrite Hh.
  - by rewrite Hh.
Qed.









(* ===================================================================== *)
(** ** The error envelope *)
(* ===================================================================== *)

Lemma plain_ret_value v : plain (ret (Return v)).
Proof. done. Qed.

Lemma plain_ret_dict fields : plain (ret (ReturnDict fields)).
Proof. done. Qed.

Lemma plain_raise e : plain (raise e).
Proof. done. Qed.

Lemma plain_bind {A} (m : M world A) (k : A -> M world reply) :
  (forall a, plain (k a)) -> plain (bind m k).
Proof.
  intros Hk w. unfold bind. destruct (m w) as [[a|e] w']; [apply Hk|done].
Qed.

Lemma plain_return_empty_list : plain return_empty_list.
Proof. apply plain_bind. intros. apply plain_ret_value. Qed.

Lemma plain_return_records df : plain (return_records df).
Proof. apply plain_bind. intros. apply plain_ret_value. Qed.

Lemma plain_return_to_dict df : plain (return_to_dict df).
Proof.
  apply plain_bind. intros [|]; [apply plain_return_empty_list|].
  apply plain_bind. intros. apply plain_ret_value.
Qed.

Lemma plain_return_items lib name df : plain (return_items lib name df).
Proof.
  apply plain_bind. intros [|]; [apply plain_return_empty_list|].
  apply plain_bind. intros. apply plain_ret_value.
Qed.

Ltac plain :=
  repeat first
    [ apply plain_ret_value | apply plain_ret_dict | apply plain_raise
    | apply plain_return_empty_list | apply plain_return_records
    | apply plain_return_to_dict | apply plain_return_items
    | apply plain_bind; intros ?
    | match goal with
      | |- plain (if ?b then _ else _) => destruct b
      | |- plain (match ?x with _ => _ end) => destruct x
      end ].

Lemma except_500_outcome (m : M world reply) w :
  plain m -> http_outcome (except_500 m w).1.
Proof.
  intros Hm. unfold except_500, try_except. specialize (Hm w).
  destruct (m w) as [[[]|e] w']; simpl in *; done.
Qed.

Lemma except_400_500_outcome (m : M world reply) w :
  plain m -> http_outcome (except_400_500 m w).1.
Proof.
  intros Hm. unfold except_400_500, try_except. specialize (Hm w).
  destruct (m w) as [[[]|[]] w']; simpl in *; done.
Qed.

Lemma except_http_500_outcome (m : M world reply) w :
  plain m -> http_outcome (except_http_500 m w).1.
Proof.
  intros Hm. unfold except_http_500, try_except. specialize (Hm w).
  destruct (m w) as [[[]|[]] w']; simpl in *; done.
Qed.

(** But for the readiness probe, a handler returns a value or raises an
    [HTTPException]: no other exception leaves it. *)
Lemma handle_outcome lib today req w :
  req <> R_readiness_check -> http_outcome (handle lib today req w).1.
Proof.
  intros Hready. destruct req; try done; cbn [handle]; unfold_handlers;
    first [ apply except_500_outcome | apply except_400_500_outcome
          | apply except_http_500_outcome ]; plain.
Qed.






(* ===================================================================== *)
(** ** Stock codes go upstream in upper case *)
(* ===================================================================== *)







(** The routes of the funds pass their [symbol], the short name of a fund,
    as it came. *)
Lemma fund_symbol_as_given lib symbol w :
  w_calls (get_fund_top_holding lib symbol w).2
  = w_calls w ++ [Method "Fund" [] "details.top_holding" [("symbol", Str symbol)]].
Proof.
  unfold get_fund_top_holding, except_500.
  apply calls_after_call; intros ?; keeps.
Qed.

(** The price board with no symbol left raises its 400 inside the [try],
    where the clause for [Exception] turns it into a 500. *)
Example price_board_without_symbols :
  (handle silent some_day (R_get_price_board " , " "vci") empty_world).1
  = Raise (HTTPException 500 "400: Cần ít nhất một mã cổ phiếu").
Proof. reflexivity. Qed.

(* ===================================================================== *)
(** ** The normaliser: records of a table, aliasing, exceptions *)
(* ===================================================================== *)

Lemma cleaned_box a : cleaned (maybe_box_native (CAtom a)) = CAtom (json_atom a).
Proof.
  unfold cleaned. destruct a as [| | |f| |k f| | | |]; simpl; try done.
  - by destruct (float_is_nan f || float_is_inf f).
  - by destruct (float_is_nan f || float_is_inf f).
Qed.

Lemma cleaned_box_cell c :
  scalar_cell c = true -> cleaned (maybe_box_native c) = json_cell c.
Proof. destruct c; [intros _; apply cleaned_box|done]. Qed.

Lemma json_atom_native a : json_native (CAtom (json_atom a)) = true.
Proof.
  destruct a as [| | |f| |k f| | | |]; simpl; try done.
  - unfold float_is_finite. by destruct f.
  - unfold float_is_finite. by destruct f.
Qed.

(** A key that is not there goes to the end. *)
Lemma dict_set_new k v (d : dict) :
  k ∉ map fst d -> dict_set k v d = d ++ [(k, v)].
Proof.
  induction d as [|[k' v'] d IH]; intros Hk; [done|].
  rewrite dict_set_cons. rewrite decide_False.
  - simpl. f_equal. apply IH. intros H. apply Hk. rewrite map_cons. by right.
  - intros ->. apply Hk. rewrite map_cons. by left.
Qed.

Lemma fold_dict_set_NoDup (pairs : list (key * cell)) : forall d : dict,
  NoDup (map fst (d ++ pairs)) ->
  fold_left (fun d kv => dict_set kv.1 kv.2 d) pairs d = d ++ pairs.
Proof.
  induction pairs as [|[k v] pairs IH]; intros d Hnd; simpl.
  - by rewrite app_nil_r.
  - rewrite dict_set_new.
    + rewrite IH; rewrite <- app_assoc; [done|]. done.
    + rewrite map_app in Hnd. apply NoDup_app in Hnd as (_ & Hdisj & _).
      intros Hin. apply (Hdisj k Hin). simpl. by left.
Qed.

(** Pairs with distinct keys make the dictionary of these pairs, in their
    order. *)
Lemma dict_of_pairs_NoDup (pairs : list (key * cell)) :
  NoDup (map fst pairs) -> dict_of_pairs pairs = pairs.
Proof. intros H. unfold dict_of_pairs. by rewrite (fold_dict_set_NoDup pairs []). Qed.

Lemma zip_keys_NoDup (keys : list key) : forall vals : list cell,
  NoDup keys -> NoDup (map fst (zip keys vals)).
Proof.
  induction keys as [|k keys IH]; intros vals Hnd; [constructor|].
  destruct vals as [|v vals]; [constructor|]. simpl.
  apply NoDup_cons in Hnd as [Hk Hnd]. apply NoDup_cons. split; [|by apply IH].
  intros Hin. apply Hk. apply list_elem_of_fmap in Hin as ([k' v'] & -> & Hin).
  by apply elem_of_zip_l in Hin.
Qed.

Lemma clean_dict_zip (keys : list key) : forall row : list cell,
  Forall (fun c => scalar_cell c = true) row ->
  clean_dict (zip keys (map maybe_box_native row)) = zip keys (map json_cell row).
Proof.
  induction keys as [|k keys IH]; intros row Hrow; [done|].
  destruct Hrow as [|c row Hc Hrow]; [done|]. simpl.
  rewrite cleaned_box_cell by done. f_equal. by apply IH.
Qed.

Lemma scalar_rows (rows : list (list cell)) :
  forallb (forallb scalar_cell) rows = true ->
  Forall (Forall (fun c => scalar_cell c = true)) rows.
Proof.
  intros H%forallb_Forall. eapply Forall_impl; [exact H|].
  intros row. apply forallb_Forall.
Qed.

(** X1.  The records of a table.  A table that is not empty, holds scalars
    and has distinct keys (its labels, or its flattened headers) gives one
    record per row, in the order of the rows; the record of a row pairs the
    keys, in the order of the columns, with the cells of the row, each as
    JSON carries it: a missing value, a NaN and an infinity as [None], a
    numpy number as the plain number, a date-time as its ISO string,
    anything else as it is. *)
Theorem table_records (h : heap) l cols rows default_value :
  table_at h l cols rows ->
  forallb (forallb scalar_cell) rows = true ->
  NoDup (flat_keys cols) ->
  exists v h' records,
    safe_convert_to_records (VRef l) default_value h = (Ok v, h') /\
    read_records h' v = Some records /\
    length records = length rows /\
    records = map (fun row => zip (flat_keys cols) (map json_cell row)) rows.
Proof.
  intros [Hl Hne] Hrows Hnd.
  destruct (frame_records h l cols rows default_value Hl Hne Hrows) as (v & h' & Hrun & Hread).
  exists v, h', (clean_rows cols rows). split_and!; [done|done| |].
  - unfold clean_rows. by rewrite length_map.
  - unfold clean_rows. apply map_ext_Forall. apply scalar_rows in Hrows.
    eapply Forall_impl; [exact Hrows|]. intros row Hrow. simpl.
    unfold record_of_row. rewrite dict_of_pairs_NoDup by by apply zip_keys_NoDup.
    by apply clean_dict_zip.
Qed.

Lemma table_records_witness :
  exists v h' records,
    safe_convert_to_records (VRef 0%nat) (VAtom ANone) scenario_table = (Ok v, h') /\
    read_records h' v = Some records /\
    length records = 2%nat /\
    records = [[(KLabel (LStr "date"), CAtom (AStr "2024-01-02T00:00:00"));
                (KLabel (LStr "close"), CAtom (AFloat ten_and_a_half))];
               [(KLabel (LStr "date"), CAtom ANone);
                (KLabel (LStr "close"), CAtom ANone)]].
Proof.
  apply (table_records scenario_table 0%nat (Index [LStr "date"; LStr "close"])
           [[CAtom (ADatetime (mk_datetime 2024 1 2 0 0 0 0)); CAtom (AFloat ten_and_a_half)];
            [CAtom ANaT; CAtom (AFloat S754_nan)]] (VAtom ANone)).
  - split; reflexivity.
  - reflexivity.
  - repeat constructor; rewrite ?elem_of_cons, ?elem_of_nil; intros H; decompose [or] H; done.
Defined.

(** X2.  Every field of every record of a table that is not empty and
    holds scalars is [None], a [bool], an [int], a [str] or a finite
    [float]: no NaN, no infinity, no numpy scalar, no date-time object, no
    [NaT] and no [NA] is left, whatever the headers are (keys that coincide
    included). *)
Theorem table_records_json_native (h : heap) l cols rows default_value :
  table_at h l cols rows ->
  forallb (forallb scalar_cell) rows = true ->
  exists v h' records,
    safe_convert_to_records (VRef l) default_value h = (Ok v, h') /\
    read_records h' v = Some records /\
    length records = length rows /\
    Forall (Forall (fun kv => json_native kv.2 = true)) records.
Proof.
  intros [Hl Hne] Hrows.
  destruct (frame_records h l cols rows default_value Hl Hne Hrows) as (v & h' & Hrun & Hread).
  exists v, h', (clean_rows cols rows). split_and!; [done|done| |].
  - unfold clean_rows. by rewrite length_map.
  - unfold clean_rows. apply Forall_fmap. apply scalar_rows in Hrows.
    eapply Forall_impl; [exact Hrows|]. intros row Hrow. simpl.
    unfold clean_dict. apply Forall_fmap. simpl.
    apply (dict_of_pairs_spec (fun c => json_native (cleaned c) = true)).
    apply Forall_forall. intros [k c] Hin. apply elem_of_zip_r in Hin. simpl.
    apply list_elem_of_fmap in Hin as (c0 & -> & Hc0).
    eapply Forall_forall in Hrow; [|exact Hc0].
    rewrite cleaned_box_cell by done. apply json_atom_native.
Qed.

Lemma table_records_json_native_witness :
  exists v h' records,
    safe_convert_to_records (VRef 0%nat) (VAtom ANone) colliding_table = (Ok v, h') /\
    read_records h' v = Some records /\
    length records = 1%nat /\
    Forall (Forall (fun kv => json_native kv.2 = true)) records.
Proof.
  apply (table_records_json_native colliding_table 0%nat
           (MultiIndex [[LStr "a"; LStr "b_c"]; [LStr "a_b"; LStr "c"]])
           [[CAtom (AInt 1); CAtom (AInt 2)]] (VAtom ANone)).
  - split; reflexivity.
  - reflexivity.
Defined.

(* ---------- last column wins ---------- *)

Lemma dict_get_set k k' v (d : dict) :
  dict_get k (dict_set k' v d) = if decide (k = k') then Some v else dict_get k d.
Proof.
  induction d as [|[k0 v0] d IH].
  - simpl. done.
  - rewrite dict_set_cons. destruct (decide (k' = k0)) as [->|Hne]; simpl.
    + by destruct (decide (k = k0)).
    + rewrite IH. destruct (decide (k = k0)) as [->|]; [|done].
      rewrite decide_False; [done|]. by intros ->.
Qed.

Lemma dict_get_app k (d1 d2 : dict) :
  dict_get k (d1 ++ d2) = match dict_get k d1 with Some v => Some v | None => dict_get k d2 end.
Proof.
  induction d1 as [|[k0 v0] d1 IH]; [done|]. simpl. by destruct (decide (k = k0)).
Qed.

Lemma fold_dict_set_get k (pairs : list (key * cell)) : forall d : dict,
  dict_get k (fold_left (fun d kv => dict_set kv.1 kv.2 d) pairs d)
  = match last_with_key k pairs with Some v => Some v | None => dict_get k d end.
Proof.
  unfold last_with_key.
  induction pairs as [|[k0 v0] pairs IH]; intros d; [done|]. simpl.
  rewrite IH, dict_get_app, dict_get_set. simpl.
  destruct (dict_get k (rev pairs)); [done|]. by destruct (decide (k = k0)).
Qed.

(** Looking a key up in a dictionary built from pairs finds the value of
    the last pair with that key. *)
Lemma dict_get_of_pairs k (pairs : list (key * cell)) :
  dict_get k (dict_of_pairs pairs) = last_with_key k pairs.
Proof.
  unfold dict_of_pairs. rewrite fold_dict_set_get. by destruct (last_with_key k pairs).
Qed.

Lemma dict_get_clean_dict k (d : dict) :
  dict_get k (clean_dict d) = cleaned <$> dict_get k d.
Proof.
  induction d as [|[k0 v0] d IH]; [done|]. simpl. by destruct (decide (k = k0)).
Qed.

Lemma clean_dict_app (d1 d2 : dict) : clean_dict (d1 ++ d2) = clean_dict d1 ++ clean_dict d2.
Proof. unfold clean_dict. by rewrite map_app. Qed.

Lemma clean_dict_rev (d : dict) : clean_dict (rev d) = rev (clean_dict d).
Proof. unfold clean_dict. by rewrite map_rev. Qed.

(** X3.  Columns whose keys coincide (equal labels, or headers that
    flatten to the same string) share one field: every record has each key
    once, and the field of a key holds the cell of the last column with
    that key; the cells of the earlier ones are overwritten without
    notice. *)
Theorem table_last_column_wins (h : heap) l cols rows default_value :
  table_at h l cols rows ->
  forallb (forallb scalar_cell) rows = true ->
  exists v h' records,
    safe_convert_to_records (VRef l) default_value h = (Ok v, h') /\
    read_records h' v = Some records /\
    Forall2 (fun row record =>
               NoDup (map fst record) /\
               forall k, dict_get k record
                         = last_with_key k (zip (flat_keys cols) (map json_cell row)))
            rows records.
Proof.
  intros [Hl Hne] Hrows.
  destruct (frame_records h l cols rows default_value Hl Hne Hrows) as (v & h' & Hrun & Hread).
  exists v, h', (clean_rows cols rows). split_and!; [done|done|].
  unfold clean_rows. apply Forall2_fmap_r, Forall_Forall2_diag.
  apply scalar_rows in Hrows. eapply Forall_impl; [exact Hrows|]. intros row Hrow. simpl.
  split.
  - unfold clean_dict. rewrite map_map. simpl.
    apply (dict_of_pairs_spec (fun _ => True)). by apply Forall_true.
  - intros k. rewrite dict_get_clean_dict. unfold record_of_row.
    rewrite dict_get_of_pairs. unfold last_with_key.
    rewrite <- dict_get_clean_dict, clean_dict_rev. by rewrite clean_dict_zip.
Qed.

Lemma table_last_column_wins_witness :
  exists v h' records,
    safe_convert_to_records (VRef 0%nat) (VAtom ANone) colliding_table = (Ok v, h') /\
    read_records h' v = Some records /\
    Forall2 (fun row record =>
               NoDup (map fst record) /\
               forall k, dict_get k record
                         = last_with_key k
                             (zip [KLabel (LStr "a_b_c"); KLabel (LStr "a_b_c")]
                                  (map json_cell row)))
            [[CAtom (AInt 1); CAtom (AInt 2)]] records.
Proof.
  apply (table_last_column_wins colliding_table 0%nat
           (MultiIndex [[LStr "a"; LStr "b_c"]; [LStr "a_b"; LStr "c"]])
           [[CAtom (AInt 1); CAtom (AInt 2)]] (VAtom ANone)).
  - split; reflexivity.
  - reflexivity.
Defined.

(** The two columns of [colliding_table] come out as one field, holding
    the cell of the second. *)
Example colliding_headers :
  exists v h',
    safe_convert_to_records (VRef 0%nat) (VAtom ANone) colliding_table = (Ok v, h') /\
    read_records h' v = Some [[(KLabel (LStr "a_b_c"), CAtom (AInt 2))]].
Proof. eexists _, _. split; reflexivity. Qed.

(* ---------- aliasing ---------- *)

(** X4.  A dict is wrapped, not copied and not cleaned: the normaliser
    returns a new list whose one item is the caller's dict itself, and the
    dict is left as it was (a NaN in it stays); the default is not
    used. *)
Theorem dict_is_wrapped (h : heap) l items default_value :
  h !! l = Some (ODict items) ->
  exists r h',
    safe_convert_to_records (VRef l) default_value h = (Ok (VRef r), h') /\
    (length h <= r)%nat /\
    h' !! r = Some (OList [VRef l]) /\
    h' !! l = Some (ODict items).
Proof.
  intros Hl. eexists _, _. split; [by eapply run_dict|]. split_and!.
  - by apply prefix_length, default_prefix.
  - by apply list_lookup_middle.
  - apply lookup_app_l_Some. by apply default_lookup.
Qed.

Lemma dict_is_wrapped_witness :
  exists r h',
    safe_convert_to_records (VRef 0%nat) (VAtom ANone) a_dict = (Ok (VRef r), h') /\
    (length a_dict <= r)%nat /\
    h' !! r = Some (OList [VRef 0%nat]) /\
    h' !! 0%nat = Some (ODict [(KLabel (LStr "a"), CAtom (AFloat S754_nan))]).
Proof.
  apply (dict_is_wrapped a_dict 0%nat [(KLabel (LStr "a"), CAtom (AFloat S754_nan))]
           (VAtom ANone)).
  reflexivity.
Defined.

Lemma fresh_seq (h : heap) start n :
  (length h <= start)%nat -> Forall (fresh_ref h) (map VRef (seq start n)).
Proof.
  intros Hs. apply Forall_fmap, Forall_forall. intros i Hi. simpl. unfold fresh.
  apply elem_of_seq in Hi. lia.
Qed.

(** X5.  The list returned for a Series with entries or for a table that
    is not empty (scalars in both) is a new object, and so is every record
    in it: no record is shared with the caller, and the Series or table is
    still what it was. *)
Theorem records_are_new_objects (h : heap) l o default_value :
  h !! l = Some o ->
  has_records o = true ->
  scalar_object o = true ->
  exists r items h',
    safe_convert_to_records (VRef l) default_value h = (Ok (VRef r), h') /\
    h' !! r = Some (OList items) /\
    (length h <= r)%nat /\
    Forall (fresh_ref h) items /\
    h' !! l = Some o.
Proof.
  intros Hl Hrec Hs. destruct o as [entries|cols rows| | |]; try done.
  - simpl in Hs. pose proof Hl as Hl'. rewrite (scalar_entries _ Hs) in Hl'.
    pose proof (default_prefix default_value h) as Hp. apply prefix_length in Hp.
    eexists _, _, _. split; [by apply series_run|]. split_and!.
    + by apply list_lookup_middle.
    + done.
    + apply fresh_seq. lia.
    + apply lookup_app_l_Some. by apply default_lookup.
  - simpl in Hs, Hrec. apply negb_true_iff in Hrec.
    pose proof (default_prefix default_value h) as Hp. apply prefix_length in Hp.
    eexists _, _, _. split; [by apply frame_run|].
    set (h1 := (default_or_new_list default_value h).2 ++ flat_copy cols rows).
    assert (length h <= length h1)%nat as Hlen.
    { subst h1. rewrite length_app. lia. }
    split_and!.
    + unfold clean_rows. rewrite map_map.
      pose proof (lookup_last_of_three
                    (fun row => ODict (clean_dict (record_of_row (flat_keys cols) row)))
                    h1 rows (OList (map VRef (seq (length h1) (length rows))))) as H.
      exact H.
    + lia.
    + by apply fresh_seq.
    + apply lookup_app_l_Some. subst h1. apply lookup_app_l_Some. by apply default_lookup.
Qed.

Lemma records_are_new_objects_witness :
  exists r items h',
    safe_convert_to_records (VRef 0%nat) (VAtom ANone) scenario_table = (Ok (VRef r), h') /\
    h' !! r = Some (OList items) /\
    (length scenario_table <= r)%nat /\
    Forall (fresh_ref scenario_table) items /\
    h' !! 0%nat = scenario_table !! 0%nat.
Proof.
  apply (records_are_new_objects scenario_table 0%nat _ (VAtom ANone));
    reflexivity.
Defined.

(* ---------- the only exception is a ValueError ---------- *)

(** Run the first computation of a sequence, wherever the sequence
    stands in the goal. *)
Tactic Notation "run" tactic3(tac) :=
  cbv beta iota;
  lazymatch goal with
  | |- context [bind ?m ?k ?s] => erewrite (bind_ok m k s); [|tac]
  end;
  cbv beta iota.

Lemma isna_truth_raises x e : isna_truth x = Raise e -> exists msg, e = ValueError msg.
Proof.
  destruct x as [a|[|a [|b items]]]; simpl; intros H; inversion H; eauto.
Qed.

Lemma series_value_raises c e : series_value c = Raise e -> exists msg, e = ValueError msg.
Proof.
  unfold series_value. destruct (isna_truth c) as [[|]|e'] eqn:E.
  - done.
  - by destruct c as [[| | | | | | | | |]|].
  - intros [= <-]. by eapply isna_truth_raises.
Qed.

Lemma clean_action_raises c e : clean_action c = Raise e -> exists msg, e = ValueError msg.
Proof.
  destruct c as [a|items].
  - destruct a as [| | |f| |k f| | | |]; simpl; try done.
    + by destruct (float_is_nan f || float_is_inf f).
    + by destruct k, (float_is_nan f || float_is_inf f).
  - unfold clean_action. destruct (isna_truth (CList items)) as [[|]|e'] eqn:E; try done.
    intros H. inversion H; subst. by eapply isna_truth_raises.
Qed.

Lemma series_entry_any (pre : heap) acc (ds : heap) entry :
  exists r acc' ds',
    series_entry (length pre) entry (pre ++ OList acc :: ds)
    = (r, pre ++ OList acc' :: ds') /\
    returns_or_value_error r.
Proof.
  unfold series_entry. destruct (series_value entry.2) as [val|e] eqn:E.
  - exists (Ok tt). eexists _, _. split; [|done].
    step reflexivity. step reflexivity.
    rewrite <- app_assoc. simpl. apply list_append_run.
  - exists (Raise e), acc, ds. split; [done|].
    apply series_value_raises in E as [msg ->]. done.
Qed.

Lemma series_loop_any (entries : list (label * cell)) : forall (pre : heap) acc (ds : heap),
  exists r acc' ds',
    for_each entries (series_entry (length pre)) (pre ++ OList acc :: ds)
    = (r, pre ++ OList acc' :: ds') /\
    returns_or_value_error r.
Proof.
  induction entries as [|entry entries IH]; intros pre acc ds.
  - exists (Ok tt), acc, ds. done.
  - destruct (series_entry_any pre acc ds entry) as ([[]|e] & acc1 & ds1 & Hrun & Hr).
    + destruct (IH pre acc1 ds1) as (r & acc2 & ds2 & Hrun2 & Hr2).
      exists r, acc2, ds2. split; [|done].
      by erewrite for_each_cons.
    + exists (Raise e), acc1, ds1. split; [|done].
      simpl. by erewrite bind_raise.
Qed.

Lemma clean_field_any (pre post : heap) (cur : dict) kv :
  exists r cur',
    clean_field (length pre) kv (pre ++ ODict cur :: post)
    = (r, pre ++ ODict cur' :: post) /\
    returns_or_value_error r.
Proof.
  unfold clean_field. destruct (clean_action kv.2) as [[|v]|e] eqn:E.
  - by exists (Ok tt), cur.
  - exists (Ok tt). eexists. split; [|done].
    step reflexivity. unfold dict_setitem.
    step (by apply load_run, list_lookup_middle).
    unfold store. rewrite insert_app_r_alt by done. by rewrite Nat.sub_diag.
  - exists (Raise e), cur. split; [done|].
    apply clean_action_raises in E as [msg ->]. done.
Qed.

Lemma clean_fields_any (todo : dict) : forall (pre post : heap) (cur : dict),
  exists r cur',
    for_each todo (clean_field (length pre)) (pre ++ ODict cur :: post)
    = (r, pre ++ ODict cur' :: post) /\
    returns_or_value_error r.
Proof.
  induction todo as [|kv todo IH]; intros pre post cur.
  - by exists (Ok tt), cur.
  - destruct (clean_field_any pre post cur kv) as ([[]|e] & cur1 & Hrun & Hr).
    + destruct (IH pre post cur1) as (r & cur2 & Hrun2 & Hr2).
      exists r, cur2. split; [|done]. by erewrite for_each_cons.
    + exists (Raise e), cur1. split; [|done]. simpl. by erewrite bind_raise.
Qed.

Lemma clean_record_any (pre post : heap) (d : dict) :
  exists r d',
    clean_record (VRef (length pre)) (pre ++ ODict d :: post)
    = (r, pre ++ ODict d' :: post) /\
    returns_or_value_error r.
Proof.
  destruct (clean_fields_any d pre post d) as (r & d' & Hrun & Hr).
  exists r, d'. split; [|done]. unfold clean_record.
  by step (by apply load_run, list_lookup_middle).
Qed.

Lemma clean_records_any (ds : list dict) : forall pre post : heap,
  exists r ds',
    for_each (map VRef (seq (length pre) (length ds))) clean_record
             (pre ++ map ODict ds ++ post)
    = (r, pre ++ map ODict ds' ++ post) /\
    length ds' = length ds /\
    returns_or_value_error r.
Proof.
  induction ds as [|d ds IH]; intros pre post.
  - by exists (Ok tt), [].
  - cbn [length seq map app].
    destruct (clean_record_any pre (map ODict ds ++ post) d) as ([[]|e] & d' & Hrun & Hr).
    + destruct (IH (pre ++ [ODict d']) post) as (r & ds' & Hrun2 & Hlen & Hr2).
      exists r, (d' :: ds'). split_and!; [|by simpl; rewrite Hlen|done].
      erewrite for_each_cons; [|exact Hrun].
      rewrite length_app in Hrun2. simpl in Hrun2. rewrite Nat.add_1_r in Hrun2.
      rewrite <- !app_assoc in Hrun2. simpl in Hrun2. exact Hrun2.
    + exists (Raise e), (d' :: ds). split_and!; [|done|done].
      simpl. by erewrite bind_raise.
Qed.

(** What the normaliser does when it raises: the only exception that
    leaves it is the [ValueError] of a truth test on [pd.isna]. *)
Lemma normaliser_outcome df default_value (h : heap) :
  returns_or_value_error (safe_convert_to_records df default_value h).1.
Proof.
  unfold safe_convert_to_records. run apply default_run.
  generalize (default_or_new_list default_value h).2 as h1.
  generalize (default_or_new_list default_value h).1 as d. intros d h1.
  destruct (is_none df); [done|]. destruct df as [a|l]; [done|].
  run reflexivity.
  destruct (default OOther (h1 !! l)) as [entries|cols rows|items|items|] eqn:E; try done.
  - run reflexivity.
    destruct (series_loop_any entries h1 [] []) as ([[]|e] & acc & ds & Hrun & Hr).
    + run exact Hrun. done.
    + erewrite bind_raise; [|exact Hrun]. done.
  - destruct (frame_empty cols rows); [done|].
    apply default_some in E; [|done].
    assert (exists c h2 labels,
      match cols with
      | Index _ => ret l
      | MultiIndex tuples =>
          c <- alloc (ODataFrame cols rows);;
          store c (ODataFrame (Index (map (fun col => LStr (flatten_column col)) tuples))
                              rows);;;
          ret c
      end h1 = (Ok c, h2) /\
      h2 !! c = Some (ODataFrame (Index labels) rows)) as (c & h2 & labels & Hc & Hlab).
    { destruct cols as [labels|tuples].
      - by exists l, h1, labels.
      - eexists (length h1), _, _. split.
        + step reflexivity. step reflexivity. reflexivity.
        + rewrite insert_app_r_alt by done. rewrite Nat.sub_diag. simpl.
          by apply list_lookup_middle. }
    run exact Hc.
    run (by apply to_dict_records_run).
    run (apply load_run, lookup_last_of_three).
    pose proof (clean_records_any
                  (map (record_of_row (column_keys (Index labels))) rows) h2
                  [OList (map VRef (seq (length h2) (length rows)))]) as H.
    rewrite length_map, map_map in H.
    destruct H as ([[]|e] & ds' & Hrun & _ & Hr).
    + run exact Hrun. done.
    + erewrite bind_raise; [|exact Hrun]. done.
Qed.

(** X6.  Whatever the input, the default and the heap, the only exception
    that leaves [safe_convert_to_records] is a [ValueError] (that of the
    truth test on [pd.isna] of a cell that holds a list). *)
Theorem normaliser_raises_only_value_error df default_value (h : heap) e :
  (safe_convert_to_records df default_value h).1 = Raise e ->
  exists msg, e = ValueError msg.
Proof.
  intros H. pose proof (normaliser_outcome df default_value h) as Ho.
  rewrite H in Ho. destruct e; [eauto|done|done].
Qed.

Lemma normaliser_raises_only_value_error_witness :
  exists msg,
    ValueError "The truth value of an array with more than one element is ambiguous. Use a.any() or a.all()"
    = ValueError msg.
Proof.
  apply (normaliser_raises_only_value_error (VRef 0%nat) (VAtom ANone) series_with_list).
  reflexivity.
Defined.

(* ===================================================================== *)
(** ** Parsing of symbols and flattened headers *)
(* ===================================================================== *)

Module PyStrMore.
Import PyStr.
#[local] Arguments String.append !_ _ / : simpl nomatch.

Lemma lstrip_starts p s : starts_with p (lstrip p s) = false.
Proof.
  induction s as [|c s IH]; simpl; [done|].
  destruct (p c) eqn:E; [done|]. simpl. done.
Qed.

Lemma rstrip_ends p s : ends_with p (rstrip p s) = false.
Proof.
  induction s as [|c s IH]; simpl; [done|].
  destruct (rstrip p s) as [|c' r] eqn:E.
  - destruct (p c) eqn:Ep; simpl; done.
  - simpl in *. done.
Qed.

Lemma rstrip_starts p s : starts_with p s = false -> starts_with p (rstrip p s) = false.
Proof.
  destruct s as [|c s]; simpl; [done|]. intros Hc.
  destruct (rstrip p s); [|done]. by rewrite Hc.
Qed.

Lemma lstrip_fixed p s : starts_with p s = false -> lstrip p s = s.
Proof. destruct s as [|c s]; simpl; [done|]. by intros ->. Qed.

Lemma rstrip_fixed p s : ends_with p s = false -> rstrip p s = s.
Proof.
  induction s as [|c s IH]; simpl; [done|].
  destruct s as [|c' s'].
  - simpl. by intros ->.
  - intros H. rewrite IH by done. done.
Qed.

Lemma strip_starts p s : starts_with p (strip p s) = false.
Proof. unfold strip. apply rstrip_starts, lstrip_starts. Qed.

Lemma strip_ends p s : ends_with p (strip p s) = false.
Proof. unfold strip. apply rstrip_ends. Qed.

(** Stripping twice is stripping once. *)
Lemma strip_idem p s : strip p (strip p s) = strip p s.
Proof.
  unfold strip at 1.
  rewrite lstrip_fixed by apply strip_starts.
  apply rstrip_fixed, strip_ends.
Qed.

Lemma has_char_lstrip c p s : has_char c (lstrip p s) = true -> has_char c s = true.
Proof.
  induction s as [|c' s IH]; simpl; [done|].
  destruct (p c'); [|done]. intros H%IH. by rewrite H, orb_true_r.
Qed.

Lemma has_char_rstrip c p s : has_char c (rstrip p s) = true -> has_char c s = true.
Proof.
  induction s as [|c' s IH]; simpl; [done|].
  destruct (rstrip p s) as [|c'' r] eqn:E.
  - destruct (p c'); simpl; [done|]. rewrite orb_false_r. by intros ->.
  - cbn [has_char]. intros [H|H]%orb_true_iff.
    + by rewrite H.
    + rewrite IH; [by rewrite orb_true_r|done].
Qed.

Lemma has_char_strip c p s : has_char c (strip p s) = true -> has_char c s = true.
Proof. unfold strip. intros H%has_char_rstrip. by apply has_char_lstrip in H. Qed.

Lemma has_comma_upper s : has_char ","%char (upper s) = has_char ","%char s.
Proof.
  induction s as [|c s IH]; simpl; [done|].
  by rewrite PyStrFacts.upper_char_comma, IH.
Qed.

(** The pieces of a split hold no separator. *)
Lemma split_pieces sep s : Forall (fun p => has_char sep p = false) (split sep s).
Proof.
  induction s as [|c s IH]; simpl.
  - by repeat constructor.
  - destruct (Ascii.eqb c sep) eqn:E.
    + by constructor.
    + destruct (split sep s) as [|p ps]; inversion IH; subst; constructor; simpl;
        rewrite ?E; done.
Qed.




End PyStrMore.

Lemma elem_of_filter_bool {A} (f : A -> bool) (l : list A) x :
  x ∈ List.filter f l -> f x = true /\ x ∈ l.
Proof.
  induction l as [|y l IH]; simpl; [by intros ?%elem_of_nil|].
  destruct (f y) eqn:E.
  - intros [->|H]%elem_of_cons; [split; [done|by left]|].
    destruct (IH H). split; [done|by right].
  - intros H. destruct (IH H). split; [done|by right].
Qed.


(** X7.  Every item of the list that [get_price_board] makes of its
    [symbols] parameter is not empty, holds no comma, has no white space at
    either end and no lower-case letter: blank items are dropped, the
    others trimmed and put in upper case. *)
Theorem symbols_list_items symbols :
  Forall (fun t => clean_ticker t = true) (symbols_list_of symbols).
Proof.
  unfold symbols_list_of. apply Forall_fmap, Forall_forall. intros s Hs.
  apply elem_of_filter_bool in Hs as [Hne Hin].
  pose proof (PyStrMore.split_pieces ","%char symbols) as Hp.
  eapply Forall_forall in Hp; [|exact Hin]. simpl in Hp.
  unfold clean_ticker. simpl. rewrite !andb_true_iff, negb_true_iff, !String.eqb_eq.
  split_and!.
  - by rewrite PyStrFacts.upper_nonempty.
  - rewrite PyStrMore.has_comma_upper.
    destruct (has_char ","%char (PyStr.strip PyStr.is_space s)) eqn:E; [|done].
    apply PyStrMore.has_char_strip in E. congruence.
  - by rewrite PyStrFacts.upper_strip, PyStrMore.strip_idem.
  - apply PyStrFacts.upper_idem.
Qed.



(** X9.  A flattened header neither begins nor ends with an underscore,
    and stripping it again changes nothing. *)
Theorem flatten_column_ends (col : list label) :
  starts_with PyStr.is_underscore (flatten_column col) = false /\
  ends_with PyStr.is_underscore (flatten_column col) = false /\
  PyStr.strip PyStr.is_underscore (flatten_column col) = flatten_column col.
Proof.
  unfold flatten_column. split_and!.
  - apply PyStrMore.strip_starts.
  - apply PyStrMore.strip_ends.
  - apply PyStrMore.strip_idem.
Qed.

(* ===================================================================== *)
(** ** Requests: calls and statuses *)
(* ===================================================================== *)

Lemma app_world lib today now req w :
  (app lib today now req w).2 = (handle lib today req w).2.
Proof. unfold app. by destruct (handle lib today req w) as [[[]|[]] ?]. Qed.

(** X10.  A request makes at most one call into the library, whether the
    call or the work after it succeeds or fails (there is no retry):
    exactly one on every route that reaches the library, none for
    [health_check] and for a price board without symbols. *)
Theorem one_upstream_call lib today now req w :
  exists cs,
    w_calls (app lib today now req w).2 = w_calls w ++ cs /\
    length cs = if reaches_library req then 1%nat else 0%nat.
Proof.
  rewrite app_world.
  destruct req; cbn [handle reaches_library]; unfold_handlers;
    unfold except_500, except_400_500, except_http_500;
    try (eexists [_]; split;
         [ apply calls_after_call; [intros ?; keeps | intros ?; keeps] | done ]).
  - exists []. by rewrite app_nil_r.
  - destruct (symbols_list_of symbols) as [|first rest].
    + exists []. by rewrite app_nil_r.
    + destruct (String.eqb _ _);
        (eexists [_]; split;
         [ apply calls_after_call; [intros ?; keeps | intros ?; keeps] | done ]).
Qed.

(* ---------- status codes ---------- *)

Lemma except_500_fails (m : M world reply) w :
  plain m -> fails_within [500] (except_500 m w).1.
Proof.
  intros Hm. unfold except_500, try_except. specialize (Hm w).
  destruct (m w) as [[[]|e] w']; simpl in *; try done. by left.
Qed.

Lemma except_400_500_fails (m : M world reply) w :
  plain m -> fails_within [400; 500] (except_400_500 m w).1.
Proof.
  intros Hm. unfold except_400_500, try_except. specialize (Hm w).
  destruct (m w) as [[[]|[]] w']; simpl in *; try done;
    rewrite !elem_of_cons; auto.
Qed.

Lemma return_records_raises df w e :
  (return_records df w).1 = Raise e ->
  (safe_convert_to_records df (VAtom ANone) (w_heap w)).1 = Raise e.
Proof.
  unfold return_records, bind, on_heap.
  destruct (safe_convert_to_records df (VAtom ANone) (w_heap w)) as [[v|e'] h']; simpl;
    [done|congruence].
Qed.

Lemma return_records_outcome df w :
  match (return_records df w).1 with
  | Ok (Return _) | Raise (ValueError _) => True
  | _ => False
  end.
Proof.
  pose proof (normaliser_outcome df (VAtom ANone) (w_heap w)) as H.
  unfold return_records, bind, on_heap.
  destruct (safe_convert_to_records df (VAtom ANone) (w_heap w)) as [[v|[]] h']; simpl in *; done.
Qed.

Lemma indices_by_group_fails lib group w :
  no_http_exception lib ->
  fails_within [404; 500] (get_indices_by_group lib group w).1.
Proof.
  intros Hlib. unfold get_indices_by_group, except_http_500, try_except, bind at 1.
  unfold call_upstream.
  pose proof (Hlib (Function "get_indices_by_group" [("0", Str group)]) (w_heap w)) as He.
  destruct (accessor lib _ (w_heap w)) as [[df|e] h1]; simpl in *.
  - destruct (is_none df); simpl.
    + rewrite !elem_of_cons. auto.
    + pose proof (return_records_outcome df (mk_world h1 (w_calls w ++
               [Function "get_indices_by_group" [("0", Str group)]]))) as Ho.
      destruct (return_records df _) as [[[]|[]] w']; simpl in *; try done.
      rewrite !elem_of_cons. auto.
  - specialize (He e eq_refl). destruct e; simpl in *; try done; rewrite !elem_of_cons; auto.
Qed.

Lemma readiness_fails lib today w : fails_within [503] (readiness_check lib today w).1.
Proof.
  unfold readiness_check, try_except, bind, call_upstream.
  destruct (accessor lib _ (w_heap w)) as [[df|e] h1]; simpl; [done|by left].
Qed.

(** The statuses of a route. *)
Lemma handle_fails lib today req w :
  no_http_exception lib ->
  fails_within (failure_statuses req) (handle lib today req w).1.
Proof.
  intros Hlib.
  destruct req; cbn [handle failure_statuses catches_value_error];
    try apply readiness_fails; try (by apply indices_by_group_fails);
    unfold_handlers;
    first [ done
          | apply except_500_fails; plain
          | apply except_400_500_fails; plain ].
Qed.

(** X11.  When the library raises no [HTTPException] of its own, the
    status of a response is 200, 400, 404, 500 or 503; 400 comes only from
    the six routes that have a clause for [ValueError], 404 only from
    [get_indices_by_group] and 503 only from the readiness probe. *)
Theorem response_status lib today now req w :
  no_http_exception lib ->
  status (app lib today now req w).1 ∈ [200; 400; 404; 500; 503] /\
  (status (app lib today now req w).1 = 400 -> catches_value_error req = true) /\
  (status (app lib today now req w).1 = 404 -> exists group, req = R_get_indices_by_group group) /\
  (status (app lib today now req w).1 = 503 -> req = R_readiness_check).
Proof.
  intros Hlib. pose proof (handle_fails lib today req w Hlib) as H.
  unfold app. destruct (handle lib today req w) as [[[v|fields|s content]|[msg|s detail|cls msg]] w'];
    simpl in *; try done;
    try (split_and!; [repeat first [by left | right]|done..]).
  all: destruct req; cbn [failure_statuses catches_value_error] in H;
    rewrite ?elem_of_cons, ?elem_of_nil in H; decompose [or] H; subst; try done;
    (split_and!; [repeat first [by left | right]|try done; eauto..]).
Qed.

Lemma response_status_witness :
  status (app rejecting some_day some_day R_get_market_indices empty_world).1
    ∈ [200; 400; 404; 500; 503] /\
  (status (app rejecting some_day some_day R_get_market_indices empty_world).1 = 400 ->
   catches_value_error R_get_market_indices = true) /\
  (status (app rejecting some_day some_day R_get_market_indices empty_world).1 = 404 ->
   exists group, R_get_market_indices = R_get_indices_by_group group) /\
  (status (app rejecting some_day some_day R_get_market_indices empty_world).1 = 503 ->
   R_get_market_indices = R_readiness_check).
Proof.
  apply (response_status rejecting some_day some_day R_get_market_indices empty_world).
  intros c h e H. simpl in H. injection H as <-. reflexivity.
Defined.

(** X12.  A price board whose [symbols] holds no code (it is empty, or
    only commas and white space) is answered with status 500 in the error
    envelope, not 400: the [HTTPException] 400 that the handler raises
    inside its [try] is caught by the clause for [Exception].  The library
    is not called and the state is left as it was. *)
Theorem price_board_without_symbol lib today now symbols source w :
  symbols_list_of symbols = [] ->
  exists detail,
    app lib today now (R_get_price_board symbols source) w
    = (mk_response 500
         (Object [("error", VAtom (AStr "HTTP 500"));
                  ("detail", VAtom (AStr detail));
                  ("timestamp", VAtom (AStr (isoformat now)))]), w).
Proof.
  intros H. unfold app. cbn [handle]. unfold get_price_board. rewrite H.
  eexists. reflexivity.
Qed.

Lemma price_board_without_symbol_witness :
  exists detail,
    app silent some_day some_day (R_get_price_board " , " "vci") empty_world
    = (mk_response 500
         (Object [("error", VAtom (AStr "HTTP 500"));
                  ("detail", VAtom (AStr detail));
                  ("timestamp", VAtom (AStr "2024-01-02T03:04:05"))]), empty_world).
Proof.
  apply (price_board_without_symbol silent some_day some_day " , " "vci" empty_world).
  reflexivity.
Defined.

(* ===================================================================== *)
(** ** Requests: what the library returned *)
(* ===================================================================== *)

(* ---------- nothing found ---------- *)











(** The handler after a call that returned. *)
Lemma call_returned {A} lib c (k : value -> M world A) handler w df h' :
  accessor lib c (w_heap w) = (Ok df, h') ->
  try_except (bind (call_upstream lib c) k) handler w
  = try_except (k df) handler (mk_world h' (w_calls w ++ [c])).
Proof. intros H. unfold try_except, bind, call_upstream. by rewrite H. Qed.






(* ---------- a result the normaliser rejects ---------- *)










(* ===================================================================== *)
(** ** The quote history; requests and the heap *)
(* ===================================================================== *)

(* ---------- the records of the quote history ---------- *)










(* ---------- requests write to nothing that exists ---------- *)

Lemma frames_ret {A} (a : A) : frames (ret a).
Proof. by intros h0 w. Qed.

Lemma frames_raise {A} e : frames (@raise world A e).
Proof. by intros h0 w. Qed.

Lemma frames_bind {A B} (m : M world A) (k : A -> M world B) :
  frames m -> (forall a, frames (k a)) -> frames (bind m k).
Proof.
  intros Hm Hk h0 w Hw. unfold bind. specialize (Hm h0 w Hw).
  destruct (m w) as [[a|e] w']; simpl in *; [|done]. by apply Hk.
Qed.

Lemma frames_try_except {A} (m : M world A) handler :
  frames m -> (forall e, frames (handler e)) -> frames (try_except m handler).
Proof.
  intros Hm Hh h0 w Hw. unfold try_except. specialize (Hm h0 w Hw).
  destruct (m w) as [[a|e] w']; simpl in *; [done|]. by apply Hh.
Qed.

Lemma frames_on_heap {A} (m : M heap A) :
  (forall h0 h, h0 `prefix_of` h -> h0 `prefix_of` (m h).2) -> frames (on_heap m).
Proof.
  intros Hm h0 w Hw. unfold on_heap. specialize (Hm h0 (w_heap w) Hw).
  by destruct (m (w_heap w)).
Qed.

Lemma frames_call_upstream lib c : keeps_objects lib -> frames (call_upstream lib c).
Proof.
  intros (Hacc & _ & _) h0 w Hw. unfold call_upstream. specialize (Hacc c (w_heap w)).
  destruct (accessor lib c (w_heap w)). simpl in *. by etrans.
Qed.

Lemma frames_alloc o : frames (on_heap (alloc o)).
Proof. apply frames_on_heap. intros h0 h Hh. simpl. by apply prefix_app_r. Qed.

Lemma frames_safe_convert df default_value :
  frames (on_heap (safe_convert_to_records df default_value)).
Proof.
  apply frames_on_heap. intros h0 h Hh.
  by apply (framed_safe_convert_to_records h0 df default_value h).
Qed.

Lemma frames_none_or_empty df : frames (on_heap (none_or_empty df)).
Proof.
  apply frames_on_heap. intros h0 h Hh. unfold none_or_empty, py_empty.
  destruct (is_none df); [done|]. destruct df as [a|l]; [done|].
  unfold bind, load. by destruct (default OOther (h !! l)).
Qed.

Lemma frames_is_dataframe v : frames (on_heap (is_dataframe v)).
Proof.
  apply frames_on_heap. intros h0 h Hh. by destruct v.
Qed.

Lemma frames_to_dict df : frames (on_heap (py_to_dict_records df)).
Proof.
  apply frames_on_heap. intros h0 h Hh. destruct df as [a|l]; [done|].
  unfold py_to_dict_records.
  assert (wp (r <- to_dict_records l;; ret (VRef r)) (fun _ h' => framed h0 h') h) as H; [|done].
  apply wp_bind, (framed_to_dict_records h0); [done| |done].
  intros r ds h' Hh' _ _. done.
Qed.

Lemma frames_return_empty_list : frames return_empty_list.
Proof. apply frames_bind; [apply frames_alloc|]. intros. apply frames_ret. Qed.

Lemma frames_return_records df : frames (return_records df).
Proof. apply frames_bind; [apply frames_safe_convert|]. intros. apply frames_ret. Qed.

Lemma frames_return_to_dict df : frames (return_to_dict df).
Proof.
  apply frames_bind; [apply frames_none_or_empty|]. intros [|].
  - apply frames_return_empty_list.
  - apply frames_bind; [apply frames_to_dict|]. intros. apply frames_ret.
Qed.

Lemma frames_return_items lib name df :
  keeps_objects lib -> frames (return_items lib name df).
Proof.
  intros (_ & _ & Hitems).
  apply frames_bind; [apply frames_none_or_empty|]. intros [|].
  - apply frames_return_empty_list.
  - apply frames_bind; [|intros; apply frames_ret].
    apply frames_on_heap. intros h0 h Hh. etrans; [exact Hh|apply Hitems].
Qed.

Lemma frames_crypto_rows lib df : keeps_objects lib -> frames (on_heap (crypto_rows lib df)).
Proof.
  intros (_ & Hrows & _). apply frames_on_heap. intros h0 h Hh.
  etrans; [exact Hh|apply Hrows].
Qed.

Lemma framed_isoformat_record h0 v h :
  framed h0 h -> fresh_ref h0 v -> wp (isoformat_record v) (fun _ h' => framed h0 h') h.
Proof.
  intros Hh Hv. destruct v as [a|r]; simpl; [by apply wp_raise|].
  apply wp_bind, wp_load. simpl.
  destruct (default OOther (h !! r)); try by apply wp_raise.
  apply wp_for_each; [done|]. intros [k c] h' _ Hh'.
  unfold isoformat_field. simpl.
  destruct c as [[| | | | | | |d| |]|]; try by apply wp_ret.
  - by apply framed_dict_setitem.
  - by apply framed_dict_setitem.
Qed.

(** The records [get_quote_history] renders the dates of are the ones it
    has just made. *)
Lemma framed_quote_records h0 df h :
  framed h0 h ->
  wp (records <- py_to_dict_records df ;; isoformat_records records)
     (fun _ h' => framed h0 h') h.
Proof.
  intros Hh. apply wp_bind. destruct df as [a|l]; [by apply wp_raise|].
  unfold py_to_dict_records. apply wp_bind, (framed_to_dict_records h0); [done| |done].
  intros r ds h' Hh' Hds Hr. simpl. apply wp_ret. simpl.
  apply wp_bind, wp_load. rewrite Hr. simpl.
  eapply wp_mono; [|apply (wp_for_each (framed h0)); [done|]].
  - by intros [[]|e] h''.
  - intros v h'' Hv Hh''. apply framed_isoformat_record; [done|].
    by eapply Forall_forall in Hds.
Qed.

Lemma frames_quote_records df :
  frames (records <- on_heap (py_to_dict_records df) ;;
          on_heap (isoformat_records records) ;;;
          ret (Return records)).
Proof.
  intros h0 w Hw. pose proof (framed_quote_records h0 df (w_heap w) Hw) as H.
  unfold wp, bind in H. unfold bind, on_heap.
  destruct (py_to_dict_records df (w_heap w)) as [[records|e] h']; simpl in *; [|done].
  by destruct (isoformat_records records h') as [[[]|e] h''].
Qed.

Ltac frames Hlib :=
  repeat first
    [ apply frames_ret | apply frames_raise
    | apply frames_return_empty_list | apply frames_return_records
    | apply frames_return_to_dict
    | apply frames_return_items; exact Hlib
    | apply frames_crypto_rows; exact Hlib
    | apply frames_call_upstream; exact Hlib
    | apply frames_quote_records
    | apply frames_none_or_empty | apply frames_is_dataframe | apply frames_to_dict
    | apply frames_try_except; [|intros ?]
    | apply frames_bind; [|intros ?]
    | match goal with
      | |- frames (if ?b then _ else _) => destruct b
      | |- frames (match ?x with _ => _ end) => destruct x
      end ].




(* ===================================================================== *)
(** ** The group route, the readiness probe, exceptions of handlers *)
(* ===================================================================== *)

(** X17.  When the library returns [None] for a group,
    [get_indices_by_group] answers 404 in the error envelope, with the
    detail ["Group '<group>' not found"]: its own [HTTPException] passes
    the clause [except HTTPException: raise]. *)
Theorem unknown_group_is_404 lib today now group w h1 :
  accessor lib (Function "get_indices_by_group" [("0", Str group)]) (w_heap w)
  = (Ok (VAtom ANone), h1) ->
  (app lib today now (R_get_indices_by_group group) w).1
  = mk_response 404
      (Object [("error", VAtom (AStr "HTTP 404"));
               ("detail", VAtom (AStr ("Group '" +:+ group +:+ "' not found")));
               ("timestamp", VAtom (AStr (isoformat now)))]).
Proof.
  intros Hacc. unfold app. cbn [handle]. unfold get_indices_by_group, except_http_500.
  by rewrite (call_returned _ _ _ _ _ _ _ Hacc).
Qed.

Lemma unknown_group_is_404_witness :
  (app silent some_day some_day (R_get_indices_by_group "VN30") empty_world).1
  = mk_response 404
      (Object [("error", VAtom (AStr "HTTP 404"));
               ("detail", VAtom (AStr "Group 'VN30' not found"));
               ("timestamp", VAtom (AStr "2024-01-02T03:04:05"))]).
Proof.
  apply (unknown_group_is_404 silent some_day some_day "VN30" empty_world []).
  reflexivity.
Defined.

(** X18.  The readiness probe answers 200 with [ready] true and the time
    whenever the call to the library returns, whatever it returns, and 503
    with [ready] false and the message of the exception whenever the call
    raises, whatever it raises. *)
Theorem readiness_answers lib today now w :
  (forall v h1,
     accessor lib (Method "Listing" [("source", Str "vci")] "all_symbols" []) (w_heap w)
     = (Ok v, h1) ->
     (app lib today now R_readiness_check w).1
     = mk_response 200
         (Object [("ready", VAtom (ABool true));
                  ("timestamp", VAtom (AStr (isoformat today)))])) /\
  (forall e h1,
     accessor lib (Method "Listing" [("source", Str "vci")] "all_symbols" []) (w_heap w)
     = (Raise e, h1) ->
     (app lib today now R_readiness_check w).1
     = mk_response 503
         (Object [("ready", VAtom (ABool false));
                  ("error", VAtom (AStr (exn_str e)))])).
Proof.
  split.
  - intros v h1 Hacc. unfold app. cbn [handle]. unfold readiness_check.
    by rewrite (call_returned _ _ _ _ _ _ _ Hacc).
  - intros e h1 Hacc. unfold app. cbn [handle].
    unfold readiness_check, try_except, bind, call_upstream. by rewrite Hacc.
Qed.

Lemma readiness_answers_witness :
  (app silent some_day some_day R_readiness_check empty_world).1
  = mk_response 200
      (Object [("ready", VAtom (ABool true));
               ("timestamp", VAtom (AStr "2024-01-02T03:04:05"))]).
Proof.
  apply (proj1 (readiness_answers silent some_day some_day empty_world) (VAtom ANone) []).
  reflexivity.
Defined.

(** X19.  Whatever the library does, the only exception that leaves a
    handler is an [HTTPException]: the handler registered for [Exception]
    is never reached from the body of a handler. *)
Theorem handlers_raise_only_http_exceptions lib today req w e :
  (handle lib today req w).1 = Raise e -> is_http_exception e = true.
Proof.
  intros H.
  assert (req = R_readiness_check \/ req <> R_readiness_check) as [->|Hne]
    by (destruct req; first [by left | by right]).
  - exfalso. revert H. cbn [handle].
    unfold readiness_check, try_except, bind, call_upstream.
    by destruct (accessor lib _ (w_heap w)) as [[v|e'] h1].
  - pose proof (handle_outcome lib today req w Hne) as Ho. rewrite H in Ho.
    by destruct e.
Qed.

Lemma handlers_raise_only_http_exceptions_witness :
  is_http_exception (HTTPException 500 "invalid date range") = true.
Proof.
  apply (handlers_raise_only_http_exceptions rejecting some_day R_get_market_indices
           empty_world).
  reflexivity.
Defined.
